(** * Bitcoin price tracker on Gnumeric: a shallow embedding

    The script [python-gnumeric-example.py] opens (or creates) the workbook
    [btcprices.gnumeric], makes sure its first sheet carries a title row,
    looks for the first unused data row, fetches a quote, writes a
    timestamp and a price into that row, formats the price and saves.

    The spreadsheet engine, the file system and the network are outside the
    script.  The engine's cell store is modelled by finite maps; what the
    engine decides on its own (how a text is interpreted, how a document is
    loaded or saved) is a member of the class [Gnumeric]. *)

From Stdlib Require Import ZArith QArith Qround Qpower Qabs Lqa Lia.
From Stdlib Require Import List Ascii String.
From stdpp Require Import base option list gmap strings.

Local Open Scope string_scope.
Local Open Scope list_scope.
Local Open Scope Z_scope.

(** ** Python values the script manipulates *)

(** A Python float, an IEEE 754 binary64: a finite number (carried as the
    rational it is exactly; zero is the positive zero), the negative zero,
    an infinity, or a NaN. *)
Inductive PyFloat :=
  | Finite (q : Q)
  | NegativeZero
  | Infinity (negative : bool)
  | NaN.

(** Exceptions the script can end with. *)
Inductive PyError :=
  | IOError (msg : string)
  | NameError (var : string)
  | AttributeError (msg : string)
  | KeyError (key : string)
  | TypeError (msg : string)
  | ValueError (msg : string)
  | LocaleError
  | URLError.

(** ** The engine's data model *)

Module Gnm.

(** [Gnm.Value]: the typed content of a cell. *)
Inductive Value :=
  | VEmpty
  | VBool (b : bool)
  | VFloat (x : PyFloat)
  | VString (s : string).

(** What was put into a cell: a text handed to the engine for
    interpretation ([cell_set_text]) or a typed value
    ([cell_set_value]). *)
Inductive Content :=
  | Text (t : string)
  | Typed (v : Value).

(** [Gnm.Style]: a bundle of formatting elements; an element that was
    never set is [None]. *)
Record Style := mkStyle {
  font_bold : option bool;
  format_text : option string
}.

(** [Gnm.Range]: start column, start row, end column, end row,
    inclusive and zero-based. *)
Record Range := mkRange {
  start_col : Z;
  start_row : Z;
  end_col : Z;
  end_row : Z
}.

(** One mutation of a sheet, as journalled by the model. *)
Inductive Write :=
  | WName (n : string)
  | WText (col row : Z) (t : string)
  | WValue (col row : Z) (v : Value)
  | WStyle (r : Range) (st : Style).

(** A sheet: name, row count, the cells that exist, the styles laid over
    positions, and the journal of mutations (latest first). *)
Record Sheet := mkSheet {
  name : string;
  rows : Z;
  cells : gmap (Z * Z) Content;
  styles : gmap (Z * Z) Style;
  journal : list Write
}.

(** [Gnm.Style.new()] *)
Definition Style_new : Style := mkStyle None None.

(** [st.set_font_bold(b)] *)
Definition set_font_bold (b : bool) (st : Style) : Style :=
  mkStyle (Some b) (format_text st).

(** [st.set_format_text(fmt)] *)
Definition set_format_text (fmt : string) (st : Style) : Style :=
  mkStyle (font_bold st) (Some fmt).

(** [r.init(start_col, start_row, end_col, end_row)] *)
Definition Range_init (c0 r0 c1 r1 : Z) : Range := mkRange c0 r0 c1 r1.

(** The positions a range covers. *)
Definition positions (r : Range) : list (Z * Z) :=
  c ← seqZ (start_col r) (end_col r - start_col r + 1);
  (λ w, (c, w)) <$> seqZ (start_row r) (end_row r - start_row r + 1).

(** Laying a style over another: the elements the new style sets win. *)
Definition overlay (new old : Style) : Style :=
  mkStyle (if font_bold new is Some b then Some b else font_bold old)
          (if format_text new is Some f then Some f else format_text old).

(** The style in force at a position. *)
Definition style_at (s : Sheet) (col row : Z) : Style :=
  default Style_new (styles s !! (col, row)).

Definition restyle (st : Style) (p : Z * Z) (m : gmap (Z * Z) Style)
  : gmap (Z * Z) Style :=
  <[p := overlay st (default Style_new (m !! p))]> m.

(** [sheet.apply_style(r, st)] *)
Definition apply_style (r : Range) (st : Style) (s : Sheet) : Sheet :=
  mkSheet (name s) (rows s) (cells s)
          (foldr (restyle st) (styles s) (positions r))
          (WStyle r st :: journal s).

(** [sheet.cell_set_text(col, row, text)] *)
Definition cell_set_text (col row : Z) (t : string) (s : Sheet) : Sheet :=
  mkSheet (name s) (rows s) (<[(col, row) := Text t]> (cells s)) (styles s)
          (WText col row t :: journal s).

(** [sheet.cell_set_value(col, row, value)] *)
Definition cell_set_value (col row : Z) (v : Value) (s : Sheet) : Sheet :=
  mkSheet (name s) (rows s) (<[(col, row) := Typed v]> (cells s)) (styles s)
          (WValue col row v :: journal s).

(** [sheet.props.name = n] *)
Definition set_name (n : string) (s : Sheet) : Sheet :=
  mkSheet n (rows s) (cells s) (styles s) (WName n :: journal s).

(** [Gnm.Value.new_float(x)] *)
Definition Value_new_float (x : PyFloat) : Value := VFloat x.

(** A workbook: its URI and its sheets. *)
Record Workbook := mkWorkbook {
  uri : string;
  sheets : list Sheet
}.

End Gnm.

Import Gnm.

(** ** Files *)

Inductive FileNode :=
  | RegularFile (data : string)
  | Directory.

Abbreviation Disk := (gmap string FileNode).

(** [os.path.isfile(filename)] *)
Definition os_path_isfile (d : Disk) (filename : string) : bool :=
  if d !! filename is Some (RegularFile _) then true else false.

(** ** What the engine decides by itself *)

Class Gnumeric := {
  (** the value the engine reads out of a text put into a cell *)
  interpret_text : string → Value;
  (** [GOffice.filename_to_uri] *)
  filename_to_uri : string → string;
  (** [Gnm.WorkbookView.new_from_uri(uri, None, ioc, None)]: the document
      of the view, or nothing when the engine cannot load it *)
  new_from_uri : string → Disk → option Workbook;
  (** the [i]-th sheet of a workbook made by [new_with_sheets] *)
  blank_sheet : nat → Sheet;
  (** [GOffice.FileSaver.for_file_name(uri)]: whether a saver is known *)
  for_file_name : string → bool;
  (** [wbv.save_as(fs, uri, cc)]: the verdict, the URI the workbook has
      once the save is over (the engine may retarget a workbook it has
      saved), and the disk the save leaves *)
  save_as : Workbook → bool → string → Disk → bool * string * Disk
}.

Section Sheets.
Context `{G : Gnumeric}.

(** [sheet.cell_get_value(col, row)]; [None] when no cell exists there. *)
Definition cell_get_value (s : Sheet) (col row : Z) : option Value :=
  match cells s !! (col, row) with
  | None => None
  | Some (Text t) => Some (interpret_text t)
  | Some (Typed v) => Some v
  end.

(** [x is None] *)
Definition is_None {A} (x : option A) : bool :=
  if x is None then true else false.

(** *** Schema ensurer (the title row) *)

Definition bold_style : Style := set_font_bold true Style_new.

Definition ensure_schema (s : Sheet) : Sheet :=
  if is_None (cell_get_value s 1 1) then
    let s := cell_set_text 1 1 "Timestamp (UTC)" s in
    let s := cell_set_text 2 1 "BTC Price (USD)" s in
    let st := bold_style in
    let r := Range_init 1 1 2 1 in
    apply_style r st s
  else s.

(** *** Row-end finder *)

(** [range(a, b)] *)
Definition py_range (a b : Z) : list Z := seqZ a (b - a).

(** The [for ... break] loop over the rows still to visit; [row] is the
    loop variable as the iterations before left it ([None]: unbound). *)
Fixpoint scan (s : Sheet) (todo : list Z) (row : option Z) : option Z :=
  match todo with
  | [] => row
  | r :: todo' =>
      if is_None (cell_get_value s 1 r) then Some r
      else scan s todo' (Some r)
  end.

Definition find_row (s : Sheet) : option Z :=
  scan s (py_range 2 (rows s)) None.

End Sheets.

(** ** Text helpers of the Python runtime *)

Module Py.

Definition chars (s : string) : list ascii := list_ascii_of_string s.
Definition text (l : list ascii) : string := string_of_list_ascii l.

Definition is_digit (c : ascii) : bool :=
  let n := Z.of_nat (nat_of_ascii c) in (48 <=? n) && (n <=? 57).

Definition digit_value (c : ascii) : Z := Z.of_nat (nat_of_ascii c) - 48.

Definition digit_char (d : Z) : ascii := ascii_of_nat (Z.to_nat (48 + d)).

(** The number a run of decimal digits denotes. *)
Definition digits_value (ds : list ascii) : Z :=
  fold_left (λ acc c, 10 * acc + digit_value c) ds 0.

(** A non-empty run of digits as a number. *)
Definition number (ds : list ascii) : option Z :=
  if forallb is_digit ds && negb (length ds =? 0)%nat
  then Some (digits_value ds) else None.

(** The longest prefix of digits, and what follows it. *)
Fixpoint span_digits (l : list ascii) : list ascii * list ascii :=
  match l with
  | c :: l' =>
      if is_digit c then
        let '(ds, rest) := span_digits l' in (c :: ds, rest)
      else ([], l)
  | [] => ([], [])
  end.

(** [n] in decimal on exactly [w] digits (the low [w] digits). *)
Fixpoint fixed (w : nat) (n : Z) : list ascii :=
  match w with
  | O => []
  | S w' => fixed w' (n / 10) ++ [digit_char (n mod 10)]
  end.

(** [s.startswith(p)] on character lists. *)
Fixpoint starts_with (p l : list ascii) : bool :=
  match p, l with
  | [], _ => true
  | a :: p', b :: l' => Ascii.eqb a b && starts_with p' l'
  | _ :: _, [] => false
  end.

(** [s.replace(old, new)] for a non-empty [old]: occurrences are
    replaced from left to right without overlap.  [skip] counts the
    characters of a match still to be dropped. *)
Fixpoint replace_from (old new : list ascii) (skip : nat) (l : list ascii)
  : list ascii :=
  match l with
  | [] => []
  | c :: l' =>
      match skip with
      | S k => replace_from old new k l'
      | O =>
          if starts_with old l
          then new ++ replace_from old new (length old - 1) l'
          else c :: replace_from old new 0 l'
      end
  end.

Definition replace (old new s : string) : string :=
  text (replace_from (chars old) (chars new) 0 (chars s)).

(** White space of a unicode text, whose characters are taken as the
    code points below 256: TAB to CR, FS to US, the space, NEL and the
    no-break space. *)
Definition is_space (c : ascii) : bool :=
  let n := nat_of_ascii c in
  ((9 <=? n) && (n <=? 13) || (28 <=? n) && (n <=? 32)
   || (n =? 133) || (n =? 160))%nat.

Fixpoint lstrip (l : list ascii) : list ascii :=
  match l with
  | c :: l' => if is_space c then lstrip l' else l
  | [] => []
  end.

Definition strip (l : list ascii) : list ascii :=
  rev (lstrip (rev (lstrip l))).

Definition lower (c : ascii) : ascii :=
  let n := nat_of_ascii c in
  if ((65 <=? n) && (n <=? 90))%nat then ascii_of_nat (n + 32) else c.

(** *** [float(text)] *)

(** A leading sign: whether it is a minus, and the rest. *)
Definition sign (l : list ascii) : bool * list ascii :=
  match l with
  | "-"%char :: l' => (true, l')
  | "+"%char :: l' => (false, l')
  | _ => (false, l)
  end.

(** The exponent part: nothing, or [e]/[E], a sign and digits. *)
Definition exponent (l : list ascii) : option Z :=
  match l with
  | [] => Some 0
  | c :: l' =>
      if Ascii.eqb (lower c) "e" then
        let '(neg, ds) := sign l' in
        e ← number ds; Some (if neg then - e else e)
      else None
  end.

(** [m * 10^e] as a reduced fraction. *)
Definition scale10 (m e : Z) : Q :=
  Qred (if 0 <=? e then (m * 10 ^ e) # 1 else m # Z.to_pos (10 ^ (- e))).

(** [2^z] *)
Definition pow2 (z : Z) : Q := Qpower 2 z.

(** The integer nearest to [x], the even one of two that are equally
    near. *)
Definition round_half_even (x : Q) : Z :=
  let f := Qfloor x in
  match (x - inject_Z f ?= 1 # 2)%Q with
  | Lt => f
  | Gt => f + 1
  | Eq => if Z.even f then f else f + 1
  end.

(** For a positive [q], the [z] with [2^z <= q < 2^(z+1)]. *)
Definition ilog2 (q : Q) : Z :=
  let lg := Z.log2 (Qnum q) - Z.log2 (Z.pos (Qden q)) in
  match (q ?= pow2 lg)%Q with
  | Lt => lg - 1
  | _ => lg
  end.

(** The binary64 nearest to the magnitude [q >= 0] with the sign given:
    53 significant bits, the least exponent -1074, ties to the even
    mantissa, an infinity from [2^1024] on. *)
Definition binary64 (neg : bool) (q : Q) : PyFloat :=
  let zero := if neg then NegativeZero else Finite 0 in
  if Qnum q <=? 0 then zero
  else
    let e := Z.max (ilog2 q - 52) (-1074) in
    let m := round_half_even (q / pow2 e) in
    if m =? 0 then zero
    else if 1024 <=? Z.log2 m + e then Infinity neg
    else Finite (Qred (inject_Z (if neg then - m else m) * pow2 e)).

(** [float(text)] of a unicode text (characters taken as the code
    points below 256, where the decimal digits are the ASCII ones): white
    space around, a sign, then [inf], [infinity], [nan], or digits with at
    most one point and an exponent; the value is rounded to the nearest
    binary64.  [None] stands for [ValueError]. *)
Definition float (s : string) : option PyFloat :=
  let '(neg, l) := sign (strip (chars s)) in
  let word := text (lower <$> l) in
  if (String.eqb word "inf" || String.eqb word "infinity")%bool
  then Some (Infinity neg)
  else if String.eqb word "nan" then Some NaN
  else
    let '(ip, l1) := span_digits l in
    let '(fp, l2) :=
      match l1 with
      | "."%char :: t => span_digits t
      | _ => ([], l1)
      end in
    if ((length ip =? 0) && (length fp =? 0))%nat then None
    else
      e ← exponent l2;
      let m := digits_value (ip ++ fp) in
      Some (binary64 neg (scale10 m (e - Z.of_nat (length fp)))).

(** *** [locale] *)

(** The part of [localeconv()] that [atof] reads. *)
Record Locale := mkLocale {
  thousands_sep : string;
  decimal_point : string
}.

Definition is_ascii (c : ascii) : bool := (nat_of_ascii c <? 128)%nat.

(** [s.replace(old, new)] on a unicode text [s] with a byte text [old]
    of the C library: [old] is decoded as ASCII first, and any other byte
    in it raises [UnicodeDecodeError], a [ValueError] ([None] here). *)
Definition replace_bytes (old new s : string) : option string :=
  if forallb is_ascii (chars old) then Some (replace old new s) else None.

(** [locale.atof(string)] on a unicode text: drop the grouping separator,
    turn the decimal point into a dot, call [float]; [None] stands for
    the [ValueError] of any of the three. *)
Definition atof (loc : Locale) (s : string) : option PyFloat :=
  let ts := thousands_sep loc in
  s ← (if negb (String.eqb ts "") then replace_bytes ts "" s else Some s);
  let dd := decimal_point loc in
  s ← (if negb (String.eqb dd "") then replace_bytes dd "." s else Some s);
  float s.

(** *** [datetime] and [dateutil.parser.parse] on ISO-8601 texts *)

Record datetime := mkDatetime {
  year : Z; month : Z; day : Z;
  hour : Z; minute : Z; second : Z;
  microsecond : Z;
  utcoffset : option Z   (* minutes east of UTC; [None]: naive *)
}.

Definition is_leap (y : Z) : bool :=
  ((y mod 4 =? 0) && negb (y mod 100 =? 0)) || (y mod 400 =? 0).

Definition days_in_month (y m : Z) : Z :=
  if m =? 2 then (if is_leap y then 29 else 28)
  else if (m =? 4) || (m =? 6) || (m =? 9) || (m =? 11) then 30
  else 31.

(** The checks of the [datetime] constructor. *)
Definition valid_fields (y mo d h mi s : Z) : bool :=
  (1 <=? y) && (y <=? 9999) && (1 <=? mo) && (mo <=? 12) &&
  (1 <=? d) && (d <=? days_in_month y mo) &&
  (0 <=? h) && (h <=? 23) && (0 <=? mi) && (mi <=? 59) &&
  (0 <=? s) && (s <=? 59).

(** The zone designator: none, [Z], or a signed [HH:MM] / [HHMM]. *)
Definition zone (l : list ascii) : option (option Z) :=
  match l with
  | [] => Some None
  | ["Z"%char] => Some (Some 0)
  | sg :: h1 :: h2 :: rest =>
      if Ascii.eqb sg "+" || Ascii.eqb sg "-" then
        h ← number [h1; h2];
        m ← match rest with
            | [":"%char; m1; m2] | [m1; m2] => number [m1; m2]
            | [] => Some 0
            | _ => None
            end;
        let off := 60 * h + m in
        Some (Some (if Ascii.eqb sg "-" then - off else off))
      else None
  | _ => None
  end.

(** What follows the seconds: an optional fraction, then the zone. *)
Definition tail (l : list ascii) : option (Z * option Z) :=
  match l with
  | "."%char :: l' =>
      let '(fr, rest) := span_digits l' in
      if (length fr =? 0)%nat then None
      else
        z ← zone rest;
        Some (digits_value (take 6 (fr ++ replicate 6 "0"%char)), z)
  | _ => z ← zone l; Some (0, z)
  end.

(** A reader of timestamps in the ISO-8601 extended form
    [YYYY-MM-DDTHH:MM:SS], optionally followed by a fraction and a zone
    designator; it reads nothing else.  The runs of [Demo] take it for
    their parser. *)
Definition iso8601_read (s : string) : option datetime :=
  match chars s with
  | y1 :: y2 :: y3 :: y4 :: "-"%char :: m1 :: m2 :: "-"%char :: d1 :: d2 ::
    sep :: h1 :: h2 :: ":"%char :: i1 :: i2 :: ":"%char :: s1 :: s2 :: rest =>
      if Ascii.eqb sep "T" || Ascii.eqb sep " " then
        y ← number [y1; y2; y3; y4];
        mo ← number [m1; m2];
        d ← number [d1; d2];
        h ← number [h1; h2];
        mi ← number [i1; i2];
        se ← number [s1; s2];
        '(us, z) ← tail rest;
        if valid_fields y mo d h mi se
        then Some (mkDatetime y mo d h mi se us z)
        else None
      else None
  | _ => None
  end.

(** One [strftime] directive. *)
Definition directive (c : ascii) (t : datetime) : list ascii :=
  if Ascii.eqb c "Y" then fixed 4 (year t)
  else if Ascii.eqb c "m" then fixed 2 (month t)
  else if Ascii.eqb c "d" then fixed 2 (day t)
  else if Ascii.eqb c "H" then fixed 2 (hour t)
  else if Ascii.eqb c "M" then fixed 2 (minute t)
  else if Ascii.eqb c "S" then fixed 2 (second t)
  else if Ascii.eqb c "%" then ["%"%char]
  else ["%"%char; c].

Fixpoint expand (fmt : list ascii) (t : datetime) : list ascii :=
  match fmt with
  | "%"%char :: c :: fmt' => directive c t ++ expand fmt' t
  | c :: fmt' => c :: expand fmt' t
  | [] => []
  end.

(** [t.strftime(fmt)]; the runtime refuses years before 1900. *)
Definition strftime (t : datetime) (fmt : string) : PyError + string :=
  if year t <? 1900
  then inl (ValueError "year is before 1900")
  else inr (text (expand (chars fmt) t)).

End Py.
Import Py.

(** ** The date parser *)

(** [dateutil.parser.parse(text)]: the date and time it makes of a text,
    or nothing when it raises [ValueError].  The parser is a library of
    its own that reads many notations; the script is modelled over every
    parser. *)
Class Dateutil := {
  dateutil_parse : string → option datetime
}.

(** ** The quote: parsed JSON *)

Local Set Warnings "-register-all".

Inductive JSON :=
  | JNull
  | JBool (b : bool)
  | JNumber (q : Q)
  | JString (s : string)
  | JArray (items : list JSON)
  | JObject (members : list (string * JSON)).

(** The member [key] of a parsed object; [json.loads] keeps the last of
    several members with one key. *)
Fixpoint member (key : string) (members : list (string * JSON)) : option JSON :=
  match members with
  | [] => None
  | (k, v) :: rest =>
      match member key rest with
      | Some v' => Some v'
      | None => if String.eqb k key then Some v else None
      end
  end.

(** [data[key]] for a text key. *)
Definition getitem (data : JSON) (key : string) : PyError + JSON :=
  match data with
  | JObject members =>
      match member key members with
      | Some v => inr v
      | None => inl (KeyError key)
      end
  | _ => inl (TypeError "indices must be integers")
  end.

(** A value handed to the date parser, which takes a text. *)
Definition as_text (v : JSON) : PyError + string :=
  match v with
  | JString s => inr s
  | _ => inl (TypeError "expected string or buffer")
  end.

(** A value handed to [locale.atof], which starts by calling the
    [replace] method of its argument (no locale has an empty decimal
    point): a text has the method, no other value of a quote has. *)
Definition as_replaceable (v : JSON) : PyError + string :=
  match v with
  | JString s => inr s
  | _ => inl (AttributeError "object has no attribute 'replace'")
  end.

(** ** The world of one run *)

(** The two module-level globals, the disk, and the documents in memory;
    a document is referred to by its index in [heap], a sheet by the
    document's handle and its index in the document. *)
Record World := mkWorld {
  cc : option unit;
  ioc : option unit;
  disk : Disk;
  heap : list Workbook
}.

(** What the run is given from outside: the outcome of fetching and
    decoding the quote, and the numeric locale of the environment (if the
    runtime supports it). *)
Record Env := mkEnv {
  response : PyError + JSON;
  numeric_locale : option Locale
}.

(** Computations that may raise; the world survives an exception. *)
Definition M (A : Type) : Type := World → (PyError + A) * World.

Definition ret {A} (x : A) : M A := λ w, (inr x, w).

Definition raise {A} (e : PyError) : M A := λ w, (inl e, w).

Definition bind {A B} (m : M A) (k : A → M B) : M B :=
  λ w, match m w with
       | (inr x, w') => k x w'
       | (inl e, w') => (inl e, w')
       end.

Declare Scope py_scope.
Delimit Scope py_scope with py.
Notation "x <- m ;; k" := (bind m (λ x, k))
  (at level 100, m at next level, right associativity) : py_scope.
Notation "m ;; k" := (bind m (λ _, k))
  (at level 100, right associativity) : py_scope.
Local Open Scope py_scope.

(** A result computed without the world. *)
Definition lift {A} (r : PyError + A) : M A :=
  match r with
  | inr x => ret x
  | inl e => raise e
  end.

(** An optional result, with the exception its absence stands for. *)
Definition expect {A} (e : PyError) (o : option A) : M A :=
  match o with
  | Some x => ret x
  | None => raise e
  end.

Definition get_world : M World := λ w, (inr w, w).

Definition put_world (w : World) : M unit := λ _, (inr tt, w).

Definition title : string := "Bitcoin Prices".

Definition price_format : string := "$0,000".

Definition time_format : string := "%Y-%m-%d %H:%M:%S".

Section Script.
Context `{G : Gnumeric} `{P : Dateutil}.

(** *** Objects in memory *)

(** The document behind a handle. *)
Definition deref (wb : nat) : M Workbook :=
  w <- get_world ;;
  expect (AttributeError "'NoneType' object has no attribute 'props'")
         (heap w !! wb).

(** A new document in memory; its handle. *)
Definition alloc (d : Workbook) : M nat :=
  w <- get_world ;;
  put_world (mkWorld (cc w) (ioc w) (disk w) (heap w ++ [d])) ;;
  ret (length (heap w)).

(** In-place mutation of the document behind a handle. *)
Definition mutate (wb : nat) (f : Workbook → Workbook) : M unit :=
  d <- deref wb ;;
  w <- get_world ;;
  put_world (mkWorld (cc w) (ioc w) (disk w) (<[wb := f d]> (heap w))).

(** [wb.sheet_by_index(i)]: a reference to the sheet, not a copy;
    no sheet there gives [None], whose attributes cannot be read. *)
Definition sheet_by_index (wb : nat) (i : nat) : M (nat * nat) :=
  d <- deref wb ;;
  expect (AttributeError "'NoneType' object has no attribute 'props'")
         (sheets d !! i) ;;
  ret (wb, i).

(** Reading a sheet through its reference. *)
Definition sheet_read {A} (sheet : nat * nat) (f : Sheet → A) : M A :=
  d <- deref (fst sheet) ;;
  s <- expect (AttributeError "'NoneType' object has no attribute 'props'")
              (sheets d !! snd sheet) ;;
  ret (f s).

(** Mutating a sheet through its reference: the document sees it. *)
Definition sheet_update (sheet : nat * nat) (f : Sheet → Sheet) : M unit :=
  s <- sheet_read sheet id ;;
  mutate (fst sheet)
         (λ d, mkWorkbook (uri d) (<[snd sheet := f s]> (sheets d))).

(** *** Setup and initialization *)

Definition gnm_init : M unit :=
  w <- get_world ;;
  (* cc = Gnm.CmdContextStderr.new() *)
  put_world (mkWorld (Some tt) (ioc w) (disk w) (heap w)) ;;
  w <- get_world ;;
  (* ioc = GOffice.IOContext.new(cc) *)
  put_world (mkWorld (cc w) (Some tt) (disk w) (heap w)).

(** Reading a module-level global. *)
Definition global (var : string) (field : World → option unit) : M unit :=
  w <- get_world ;;
  expect (NameError var) (field w).

(** *** Workbook locator *)

(** [Gnm.Workbook.new_with_sheets(n)] *)
Definition Workbook_new_with_sheets (n : nat) : M nat :=
  alloc (mkWorkbook "" (blank_sheet <$> seq 0 n)).

Definition wb_open (filename : string) : M nat :=
  let uri := filename_to_uri filename in
  w <- get_world ;;
  if os_path_isfile (disk w) filename then
    global "ioc" ioc ;;
    (* wbv = Gnm.WorkbookView.new_from_uri(uri, None, ioc, None) *)
    let wbv := new_from_uri uri (disk w) in
    (* wb = wbv.props.workbook *)
    d <- expect (AttributeError "'NoneType' object has no attribute 'props'")
                wbv ;;
    wb <- alloc d ;;
    ret wb
  else
    wb <- Workbook_new_with_sheets 1 ;;
    (* wb.props.uri = uri *)
    mutate wb (λ d, mkWorkbook uri (sheets d)) ;;
    ret wb.

(** *** Persistence *)

Definition wb_save (wb : nat) (filename : option string) : M unit :=
  uri <- match filename with
         | None => d <- deref wb ;; ret (Gnm.uri d)
         | Some f => ret (filename_to_uri f)
         end ;;
  let fs := for_file_name uri in
  (* wbv = Gnm.WorkbookView.new(wb) *)
  d <- deref wb ;;
  global "cc" cc ;;
  w <- get_world ;;
  let '(ok, uri', disk') := save_as d fs uri (disk w) in
  put_world (mkWorld (cc w) (ioc w) disk'
                     (<[wb := mkWorkbook uri' (sheets d)]> (heap w))) ;;
  if negb ok then raise (IOError "Failed to save workbook")
  else ret tt.

(** *** Row writer and formatter *)

(** [sheet.cell_set_text(1, row, tdate.strftime(...))] *)
Definition write_timestamp (tdate : datetime) (row : Z) (s : Sheet)
  : PyError + Sheet :=
  match strftime tdate time_format with
  | inr text => inr (cell_set_text 1 row text s)
  | inl e => inl e
  end.

(** [sheet.cell_set_value(2, row, Gnm.Value.new_float(locale.atof(rate)))] *)
Definition write_price (loc : Locale) (rate : string) (row : Z) (s : Sheet)
  : PyError + Sheet :=
  match atof loc rate with
  | Some x => inr (cell_set_value 2 row (Value_new_float x) s)
  | None => inl (ValueError "invalid literal for float()")
  end.

(** The price format laid over the price cell. *)
Definition format_price (row : Z) (s : Sheet) : Sheet :=
  let st := set_format_text price_format Style_new in
  let r := Range_init 2 row 2 row in
  apply_style r st s.

(** A step on a sheet that may raise: the sheet is mutated only when
    the step goes through. *)
Definition sheet_try (sheet : nat * nat) (f : Sheet → PyError + Sheet)
  : M unit :=
  s <- sheet_read sheet id ;;
  s' <- lift (f s) ;;
  sheet_update sheet (λ _, s').

(** *** The run *)

Definition main (env : Env) : M unit :=
  gnm_init ;;
  wb <- wb_open "btcprices.gnumeric" ;;
  sheet <- sheet_by_index wb 0 ;;
  n <- sheet_read sheet name ;;
  (if negb (String.eqb n title) then sheet_update sheet (set_name title)
   else ret tt) ;;
  sheet_update sheet ensure_schema ;;
  row <- sheet_read sheet find_row ;;
  data <- lift (response env) ;;
  time <- lift (getitem data "time") ;;
  updated <- lift (getitem time "updated") ;;
  updated <- lift (as_text updated) ;;
  tdate <- expect (ValueError "Unknown string format")
                  (dateutil_parse updated) ;;
  r <- expect (NameError "row") row ;;
  sheet_try sheet (write_timestamp tdate r) ;;
  loc <- expect LocaleError (numeric_locale env) ;;
  bpi <- lift (getitem data "bpi") ;;
  usd <- lift (getitem bpi "USD") ;;
  rate <- lift (getitem usd "rate") ;;
  rate <- lift (as_replaceable rate) ;;
  sheet_try sheet (write_price loc rate r) ;;
  sheet_update sheet (format_price r) ;;
  wb_save wb None.

End Script.

(** ** Vocabulary for statements about a run *)

(** The sheet a reference leads to. *)
Definition peek (sheet : nat * nat) (w : World) : option Sheet :=
  d ← heap w !! sheet.1; sheets d !! sheet.2.

(** The world with the sheet behind a reference replaced. *)
Definition poke (sheet : nat * nat) (s : Sheet) (w : World) : World :=
  match heap w !! sheet.1 with
  | Some d =>
      mkWorld (cc w) (ioc w) (disk w)
              (<[sheet.1 := mkWorkbook (uri d) (<[sheet.2 := s]> (sheets d))]>
                 (heap w))
  | None => w
  end.

(** The sheet once the run has made sure of its name. *)
Definition retitle (s : Sheet) : Sheet :=
  if negb (String.eqb (name s) title) then set_name title s else s.

(** The quote carries the two texts, and the locale is available. *)
Definition quoted (env : Env) (updated rate : string) (loc : Locale) : Prop :=
  ∃ data time bpi usd,
    response env = inr data
    ∧ getitem data "time" = inr time
    ∧ getitem time "updated" = inr (JString updated)
    ∧ getitem data "bpi" = inr bpi
    ∧ getitem bpi "USD" = inr usd
    ∧ getitem usd "rate" = inr (JString rate)
    ∧ numeric_locale env = Some loc.

Section Located.
Context `{G : Gnumeric}.

(** The document the locator comes back with for the tracked file: a
    new one when no file is there, the loaded one otherwise. *)
Definition located (w : World) (d : Workbook) : Prop :=
  let filename := "btcprices.gnumeric" in
  (os_path_isfile (disk w) filename = false
   ∧ d = mkWorkbook (filename_to_uri filename) [blank_sheet 0])
  ∨ (os_path_isfile (disk w) filename = true
     ∧ new_from_uri (filename_to_uri filename) (disk w) = Some d).

End Located.

Section Phases.
Context `{G : Gnumeric} `{P : Dateutil}.

(** The run from the fetch on, once the document, the sheet and the
    target row are at hand: the part of [main] after the scan. *)
Definition record_quote (env : Env) (wb : nat) (sheet : nat * nat)
    (row : option Z) : M unit :=
  data <- lift (response env) ;;
  time <- lift (getitem data "time") ;;
  updated <- lift (getitem time "updated") ;;
  updated <- lift (as_text updated) ;;
  tdate <- expect (ValueError "Unknown string format")
                  (dateutil_parse updated) ;;
  r <- expect (NameError "row") row ;;
  sheet_try sheet (write_timestamp tdate r) ;;
  loc <- expect LocaleError (numeric_locale env) ;;
  bpi <- lift (getitem data "bpi") ;;
  usd <- lift (getitem bpi "USD") ;;
  rate <- lift (getitem usd "rate") ;;
  rate <- lift (as_replaceable rate) ;;
  sheet_try sheet (write_price loc rate r) ;;
  sheet_update sheet (format_price r) ;;
  wb_save wb None.

(** A computation that leaves the disk as it finds it. *)
Definition keeps_disk {A} (m : M A) : Prop :=
  ∀ w, disk (m w).2 = disk w.

(** A computation that changes the disk, if at all, by one save of the
    engine on the disk it finds. *)
Definition saves_at_most_once {A} (m : M A) : Prop :=
  ∀ w, disk (m w).2 = disk w
       ∨ ∃ d fs u, disk (m w).2 = (save_as d fs u (disk w)).2.

(** A computation whose exceptions, [IOError] apart, leave the disk as it
    finds it. *)
Definition fails_before_saving {A} (m : M A) : Prop :=
  ∀ w e w', m w = (inl e, w') → (∀ msg, e ≠ IOError msg) → disk w' = disk w.

End Phases.

(** The world in which a run meets its sheet: the contexts set up, the
    document [d] last in memory with [s] for its first sheet. *)
Definition at_sheet (w : World) (d : Workbook) (s : Sheet) : World :=
  mkWorld (Some tt) (Some tt) (disk w)
          (heap w ++ [mkWorkbook (uri d) (<[0%nat := s]> (sheets d))]).

(** ** Concrete engines and sheets, for running the model *)

Module Demo.

(** A sheet without cells. *)
Definition empty_sheet (n : string) (rows : Z) : Sheet :=
  mkSheet n rows ∅ ∅ [].

(** A small engine: every text is kept as a string value, a URI is the
    file name behind a scheme, a file loads when it is not empty (its
    data names the single sheet), and saving goes as [save_ok] says;
    a failed save leaves the disk alone. *)
Definition engine (save_ok : bool) : Gnumeric := {|
  interpret_text := VString;
  filename_to_uri := λ f, "file://" +:+ f;
  new_from_uri := λ u d,
    match d !! (String.substring 7 (String.length u - 7) u) with
    | Some (RegularFile data) =>
        if String.eqb data "" then None
        else Some (mkWorkbook u [empty_sheet data 128])
    | _ => None
    end;
  blank_sheet := λ i, empty_sheet "Sheet1" 128;
  for_file_name := λ _, true;
  save_as := λ d fs u dk,
    if save_ok
    then (true, u, <[String.substring 7 (String.length u - 7) u
                     := RegularFile "saved"]> dk)
    else (false, uri d, dk)
|}.

(** Column 1 filled with numbers in the rows listed. *)
Definition fill (rs : list Z) (s : Sheet) : Sheet :=
  foldr (λ r, cell_set_value 1 r (VFloat (Finite 1))) s rs.

(** A titled sheet of 128 rows with three data rows. *)
Definition three_rows : Sheet :=
  fill [2; 3; 4] (ensure_schema (G := engine true) (empty_sheet title 128)).

(** A sheet of 128 rows whose column 1 is filled down to the last row. *)
Definition full : Sheet :=
  fill (seqZ 2 126) (empty_sheet title 128).

(** A sheet whose rows 2 and 3 have a price but no timestamp. *)
Definition prices_only : Sheet :=
  cell_set_value 2 3 (VFloat (Finite 7))
    (cell_set_value 2 2 (VFloat (Finite 5)) (empty_sheet title 128)).

(** The quote of the end-to-end scenario. *)
Definition quote : JSON :=
  JObject [("time", JObject [("updated", JString "2021-06-01T00:00:00Z")]);
           ("bpi", JObject [("USD", JObject [("rate", JString "35,000.00")])])].

Definition en_US : Locale := mkLocale "," ".".

Definition env : Env := mkEnv (inr quote) (Some en_US).

(** The timestamp of that quote, parsed. *)
Definition midnight : datetime := mkDatetime 2021 6 1 0 0 0 0 (Some 0).

(** The two writes of the run, at [row]. *)
Definition stamped (row : Z) (s : Sheet) : Sheet :=
  cell_set_text 1 row "2021-06-01 00:00:00" s.

Definition priced (row : Z) (s : Sheet) : Sheet :=
  cell_set_value 2 row (VFloat (Finite 35000)) (stamped row s).

(** A disk on which the tracked file exists. *)
Definition old_disk : Disk := {[ "btcprices.gnumeric" := RegularFile "Old" ]}.

(** The document this engine loads from it. *)
Definition old_book : Workbook :=
  mkWorkbook "file://btcprices.gnumeric" [empty_sheet "Old" 128].


(** The parser of the runs shown here. *)
Definition parser : Dateutil := {| dateutil_parse := iso8601_read |}.

(** A world before the run, with the disk given. *)
Definition boot (d : Disk) : World := mkWorld None None d [].

(** An engine whose new sheets have 2 rows only, hence no data row. *)
Definition tiny_engine : Gnumeric := {|
  interpret_text := VString;
  filename_to_uri := λ f, "file://" +:+ f;
  new_from_uri := λ u d, None;
  blank_sheet := λ i, empty_sheet "Sheet1" 2;
  for_file_name := λ _, true;
  save_as := λ d fs u dk, (false, uri d, dk)
|}.


(** The new sheet of [engine]. *)
Definition sheet1 : Sheet := empty_sheet "Sheet1" 128.

(** The document [engine] makes for the tracked file. *)
Definition new_book : Workbook :=
  mkWorkbook "file://btcprices.gnumeric" [sheet1].

(** That sheet once renamed and titled. *)
Definition sheet1_titled : Sheet :=
  ensure_schema (G := engine true) (retitle sheet1).

(** The quote could not be fetched. *)
Definition no_quote : Env := mkEnv (inl URLError) (Some en_US).

(** The quote under the C locale, which has no grouping separator. *)
Definition c_locale : Locale := mkLocale "" ".".

Definition c_env : Env := mkEnv (inr quote) (Some c_locale).

End Demo.

(** ** Statements that are examined as they stand *)

Section Statements.
Context `{G : Gnumeric}.

(** "With rows 2..2+N-1 filled in column 1 and row 2+N without a value
    there, the finder returns 2+N." *)
Definition finder_returns_end (s : Sheet) (N : Z) : Prop :=
  0 ≤ N →
  (∀ i, 2 ≤ i < 2 + N → cell_get_value s 1 i ≠ None) →
  cell_get_value s 1 (2 + N) = None →
  find_row s = Some (2 + N).

(** "A row whose column-1 cell is empty and whose column-2 cell holds a
    value is selected as the target row." *)
Definition price_only_row_selected (s : Sheet) (r : Z) : Prop :=
  cell_get_value s 1 r = None →
  cell_get_value s 2 r ≠ None →
  find_row s = Some r.

End Statements.

Section RunStatements.
Context `{G : Gnumeric} `{P : Dateutil}.


End RunStatements.

(** The characters of [YYYY-MM-DD?HH:MM:SS], the date and the time joined
    by [sep]. *)
Definition stamp_chars (y mo d h mi se : Z) (sep : ascii) : list ascii :=
  fixed 4 y ++ "-"%char :: fixed 2 mo ++ "-"%char :: fixed 2 d ++
  sep :: fixed 2 h ++ ":"%char :: fixed 2 mi ++ ":"%char :: fixed 2 se.

(** An ISO-8601 timestamp: date, [T], time, and what follows the seconds
    (a fraction, a zone designator). *)
Definition iso8601 (y mo d h mi se : Z) (suffix : string) : string :=
  text (stamp_chars y mo d h mi se "T" ++ chars suffix).

(** [YYYY-MM-DD HH:MM:SS] *)
Definition plain (y mo d h mi se : Z) : string :=
  text (stamp_chars y mo d h mi se " ").

(** ** ISO-8601 timestamps, as texts *)

(** How a date, a time of day or a zone offset is laid out: with
    separators (extended format) or without (basic format). *)
Inductive Layout := Extended | Basic.

(** The zone designator: none, [Z], a signed offset in hours and
    minutes, or a signed offset in hours. *)
Inductive Zone :=
  | NoZone
  | Zulu
  | Offset (west : bool) (hours minutes : Z) (layout : Layout)
  | OffsetHours (west : bool) (hours : Z).

(** A calendar date with a time of day, and the way a timestamp spells
    them: the layouts of date and time, the character between them, whether
    the seconds are spelled, the decimal fraction of the second (its sign
    and its digits), and the zone designator. *)
Record Timestamp := mkTimestamp {
  ts_year : Z; ts_month : Z; ts_day : Z;
  ts_hour : Z; ts_minute : Z; ts_second : Z;
  date_layout : Layout;
  joiner : ascii;
  time_layout : Layout;
  with_seconds : bool;
  fraction : option (ascii * list Z);
  zone : Zone
}.

(** A separator, present in the extended format only. *)
Definition separator (l : Layout) (c : ascii) : list ascii :=
  match l with
  | Extended => [c]
  | Basic => []
  end.

Definition render_zone (z : Zone) : list ascii :=
  let sign (west : bool) : ascii := if west then "-"%char else "+"%char in
  match z with
  | NoZone => []
  | Zulu => ["Z"%char]
  | Offset west h m l => sign west :: fixed 2 h ++ separator l ":" ++ fixed 2 m
  | OffsetHours west h => sign west :: fixed 2 h
  end.

Definition render_fraction (f : option (ascii * list Z)) : list ascii :=
  match f with
  | Some (c, ds) => c :: (digit_char <$> ds)
  | None => []
  end.

(** The text of a timestamp. *)
Definition render (t : Timestamp) : string :=
  text (fixed 4 (ts_year t) ++ separator (date_layout t) "-" ++
        fixed 2 (ts_month t) ++ separator (date_layout t) "-" ++
        fixed 2 (ts_day t) ++ [joiner t] ++
        fixed 2 (ts_hour t) ++ separator (time_layout t) ":" ++
        fixed 2 (ts_minute t) ++
        (if with_seconds t
         then separator (time_layout t) ":" ++ fixed 2 (ts_second t) ++
              render_fraction (fraction t)
         else []) ++
        render_zone (zone t)).

(** A timestamp that names a date and a time of day that exist, and
    spells them as ISO 8601 allows. *)
Definition well_formed (t : Timestamp) : bool :=
  valid_fields (ts_year t) (ts_month t) (ts_day t)
               (ts_hour t) (ts_minute t) (ts_second t)
  && (Ascii.eqb (joiner t) "T" || Ascii.eqb (joiner t) " ")
  && (with_seconds t
      || ((ts_second t =? 0) && (if fraction t is None then true else false)))
  && match fraction t with
     | Some (c, ds) =>
         (Ascii.eqb c "." || Ascii.eqb c ",")
         && negb (length ds =? 0)%nat
         && forallb (λ d, (0 <=? d) && (d <=? 9)) ds
     | None => true
     end
  && match zone t with
     | Offset _ h m _ => (0 <=? h) && (h <=? 23) && (0 <=? m) && (m <=? 59)
     | OffsetHours _ h => (0 <=? h) && (h <=? 23)
     | _ => true
     end.


(** The date and the time of day of a timestamp as
    [YYYY-MM-DD HH:MM:SS]. *)
Definition ts_plain (t : Timestamp) : string :=
  plain (ts_year t) (ts_month t) (ts_day t)
        (ts_hour t) (ts_minute t) (ts_second t).



(** 2020-02-29 23:59:07,25+0200, date and time in the basic format *)
Definition leap_day : Timestamp :=
  mkTimestamp 2020 2 29 23 59 7 Basic " " Basic true
              (Some (","%char, [2; 5])) (Offset false 2 0 Basic).

Section TimestampStatements.
Context `{P : Dateutil}.


End TimestampStatements.

(** ** Prices, as texts *)

(** A price as a text spells it: a sign or none ([Some true] is the
    minus), the whole part in groups of digits, and the digits after the
    decimal point when the point is there. *)
Record Price := mkPrice {
  minus : option bool;
  whole : list (list Z);
  decimals : option (list Z)
}.

(** How a locale writes numbers: the character between the groups of
    the whole part, if it has one, and the decimal point. *)
Record Separators := mkSeparators {
  grouping : option ascii;
  point : ascii
}.

(** The locale that writes numbers so. *)
Definition locale_of (n : Separators) : Locale :=
  mkLocale (text (option_list (grouping n))) (text [point n]).

Definition digits (ds : list Z) : list ascii := digit_char <$> ds.

(** Groups of digits with the separator between them. *)
Fixpoint grouped (sep : list ascii) (groups : list (list Z)) : list ascii :=
  match groups with
  | [] => []
  | g :: rest =>
      match rest with
      | [] => digits g
      | _ :: _ => digits g ++ sep ++ grouped sep rest
      end
  end.

Definition sign_chars (minus : option bool) : list ascii :=
  match minus with
  | Some true => ["-"%char]
  | Some false => ["+"%char]
  | None => []
  end.

(** The decimal point and the digits after it. *)
Definition decimal_part (point : ascii) (decimals : option (list Z))
  : list ascii :=
  match decimals with
  | Some ds => point :: digits ds
  | None => []
  end.

(** The text of a price in the notation given. *)
Definition render_price (n : Separators) (p : Price) : string :=
  text (sign_chars (minus p) ++
        grouped (option_list (grouping n)) (whole p) ++
        decimal_part (point n) (decimals p)).

(** What [replace] makes of one character of the text when [old] is the
    one character [c]. *)
Definition swap (c : ascii) (new : list ascii) (a : ascii) : list ascii :=
  if Ascii.eqb c a then new else [a].

Definition is_decimal_digit (d : Z) : bool := (0 <=? d) && (d <=? 9).

(** A price with at least one group, no group empty, all digits decimal. *)
Definition well_formed_price (p : Price) : bool :=
  negb (length (whole p) =? 0)%nat
  && forallb (λ g, negb (length g =? 0)%nat && forallb is_decimal_digit g)
             (whole p)
  && match decimals p with
     | Some ds => forallb is_decimal_digit ds
     | None => true
     end.

(** Separators that are ASCII, differ from each other, and are neither
    a digit nor a sign. *)
Definition plain_separators (n : Separators) : bool :=
  let ok (c : ascii) :=
    is_ascii c && negb (is_digit c)
    && negb (Ascii.eqb c "+") && negb (Ascii.eqb c "-") in
  ok (point n)
  && match grouping n with
     | Some g => ok g && negb (Ascii.eqb g (point n))
     | None => true
     end.

(** The number a row of decimal digits denotes. *)
Definition decimal (ds : list Z) : Z := fold_left (λ n d, 10 * n + d) ds 0.

Definition is_negative (p : Price) : bool :=
  match minus p with
  | Some true => true
  | _ => false
  end.

(** The number a price denotes without its sign, as a reduced fraction:
    all its digits over the power of ten of its decimals. *)
Definition magnitude (p : Price) : Q :=
  let ds := default [] (decimals p) in
  Qred (decimal (concat (whole p) ++ ds) # Z.to_pos (10 ^ Z.of_nat (length ds))).

(** The number a price denotes. *)
Definition price_value (p : Price) : Q :=
  if is_negative p then (- magnitude p)%Q else magnitude p.

(** [x] is the number [q] within the tolerance of binary64: a finite
    float at most [|q| * 2^-53] away from [q]. *)
Definition within_tolerance (x : PyFloat) (q : Q) : Prop :=
  ∃ y, x = Finite y ∧ (Qabs (y - q) <= Qabs q * pow2 (-53))%Q.

(** 12,345.67 *)
Definition example_price : Price :=
  mkPrice None [[1; 2]; [3; 4; 5]] (Some [6; 7]).

(** -1.234.567,5 *)
Definition debt : Price :=
  mkPrice (Some true) [[1]; [2; 3; 4]; [5; 6; 7]] (Some [5]).

(** Grouping with a comma, a dot for the decimal point. *)
Definition comma_dot : Separators := mkSeparators (Some ","%char) "."%char.

(** Grouping with a dot, a comma for the decimal point. *)
Definition dot_comma : Separators := mkSeparators (Some "."%char) ","%char.

(** * Facts about the sheet steps *)

Section SheetFacts.
Context `{G : Gnumeric}.

Implicit Types (s : Sheet) (r row col : Z).

Lemma is_None_true {A} (x : option A) : is_None x = true ↔ x = None.
Proof. destruct x; simpl; split; congruence. Qed.

Lemma is_None_false {A} (x : option A) : is_None x = false ↔ x ≠ None.
Proof. destruct x; simpl; split; congruence. Qed.

(** A cell that was written holds a value, whichever way it was written. *)
Lemma cell_get_value_Some s col row c :
  cells s !! (col, row) = Some c → cell_get_value s col row ≠ None.
Proof. unfold cell_get_value. intros ->. by destruct c. Qed.

Lemma cell_get_value_None s col row :
  cell_get_value s col row = None ↔ cells s !! (col, row) = None.
Proof.
  unfold cell_get_value.
  destruct (cells s !! (col, row)) as [[]|]; split; congruence.
Qed.

(** The loop stops at the first row without a value. *)
Lemma scan_break s pre r post prev :
  Forall (λ i, cell_get_value s 1 i ≠ None) pre →
  cell_get_value s 1 r = None →
  scan s (pre ++ r :: post) prev = Some r.
Proof.
  intros Hpre Hr. revert prev.
  induction Hpre as [|i pre Hi _ IH]; intros prev; simpl.
  - by rewrite Hr.
  - apply is_None_false in Hi. rewrite Hi. apply IH.
Qed.

(** A loop that never breaks leaves the variable at the last row
    visited, or as it was when no row was visited. *)
Lemma scan_exhaust s todo prev :
  Forall (λ i, cell_get_value s 1 i ≠ None) todo →
  scan s todo prev = from_option Some prev (last todo).
Proof.
  intros Htodo. revert prev.
  induction Htodo as [|i todo Hi _ IH]; intros prev; simpl; [done|].
  apply is_None_false in Hi. rewrite Hi, IH.
  destruct todo as [|j todo]; [done|].
  change (last (i :: j :: todo)) with (last (j :: todo)).
  destruct (last (j :: todo)) eqn:Hlast; [done|].
  by apply last_None in Hlast.
Qed.

Lemma py_range_split a b k :
  a ≤ k < b → py_range a b = seqZ a (k - a) ++ k :: seqZ (k + 1) (b - k - 1).
Proof.
  intros Hk. unfold py_range.
  replace (b - a) with ((k - a) + (b - k)) by lia.
  rewrite seqZ_app by lia.
  replace (a + (k - a)) with k by lia.
  rewrite (seqZ_cons k) by lia.
  by replace (Z.succ k) with (k + 1) by lia;
     replace (Z.pred (b - k)) with (b - k - 1) by lia.
Qed.

Lemma py_range_last a b : a < b → last (py_range a b) = Some (b - 1).
Proof.
  intros Hab. unfold py_range.
  replace (b - a) with (Z.of_nat (S (Z.to_nat (b - a - 1)))) by lia.
  rewrite seqZ_S, last_snoc. f_equal. lia.
Qed.

(** The first row at or after 2, inside the sheet, that has no value in
    column 1 is the row found. *)
Lemma find_row_first s r :
  2 ≤ r < rows s →
  (∀ i, 2 ≤ i < r → cell_get_value s 1 i ≠ None) →
  cell_get_value s 1 r = None →
  find_row s = Some r.
Proof.
  intros Hr Hfilled Hempty. unfold find_row.
  rewrite (py_range_split 2 (rows s) r) by done.
  apply scan_break; [|done].
  apply Forall_seqZ. intros i Hi. apply Hfilled. lia.
Qed.

(** A sheet with no data row to visit leaves [row] unbound. *)
Lemma find_row_unbound s : rows s ≤ 2 → find_row s = None.
Proof.
  intros Hrows. unfold find_row, py_range. by rewrite seqZ_nil by lia.
Qed.

Lemma find_row_last s :
  2 < rows s →
  (∀ i, 2 ≤ i < rows s → cell_get_value s 1 i ≠ None) →
  find_row s = Some (rows s - 1).
Proof.
  intros Hrows Hfilled. unfold find_row.
  rewrite scan_exhaust.
  - by rewrite py_range_last by lia.
  - apply Forall_seqZ. intros i Hi. apply Hfilled. lia.
Qed.

(** Filled rows, decided by running through them. *)
Lemma filled_by_computation s a n :
  forallb (λ i, negb (is_None (cell_get_value s 1 i))) (seqZ a n) = true →
  ∀ i, a ≤ i < a + n → cell_get_value s 1 i ≠ None.
Proof.
  intros Hall i Hi.
  rewrite forallb_forall in Hall.
  specialize (Hall i). rewrite <- list_elem_of_In, elem_of_seqZ in Hall.
  apply is_None_false, negb_true_iff. auto.
Qed.

(** *** What one write does to the sheet *)

Lemma cells_cell_set_text s col row t c r :
  cells (cell_set_text col row t s) !! (c, r) =
    if decide ((col, row) = (c, r)) then Some (Text t) else cells s !! (c, r).
Proof. simpl. apply lookup_insert. Qed.

Lemma cells_cell_set_value s col row v c r :
  cells (cell_set_value col row v s) !! (c, r) =
    if decide ((col, row) = (c, r)) then Some (Typed v) else cells s !! (c, r).
Proof. simpl. apply lookup_insert. Qed.

Lemma positions_single col row :
  positions (Range_init col row col row) = [(col, row)].
Proof.
  unfold positions, Range_init; simpl.
  replace (col - col + 1) with 1 by lia.
  replace (row - row + 1) with 1 by lia.
  rewrite !seqZ_cons, !seqZ_nil by lia. done.
Qed.

Lemma write_timestamp_inv tdate row s s' :
  write_timestamp tdate row s = inr s' →
  ∃ text, strftime tdate time_format = inr text
          ∧ s' = cell_set_text 1 row text s.
Proof.
  unfold write_timestamp.
  destruct (strftime tdate time_format) as [e|text]; [done|].
  intros [= <-]. eauto.
Qed.

Lemma write_price_inv loc rate row s s' :
  write_price loc rate row s = inr s' →
  ∃ x, atof loc rate = Some x
       ∧ s' = cell_set_value 2 row (Value_new_float x) s.
Proof.
  unfold write_price. destruct (atof loc rate) as [x|]; [|done].
  intros [= <-]. eauto.
Qed.

End SheetFacts.

(** * Facts about the text helpers *)

Section TextFacts.

Lemma chars_text l : chars (text l) = l.
Proof. apply list_ascii_of_string_of_list_ascii. Qed.

Lemma text_chars s : text (chars s) = s.
Proof. apply string_of_list_ascii_of_string. Qed.

Lemma length_text l : String.length (text l) = length l.
Proof. induction l as [|a l IH]; simpl; [done|by rewrite IH]. Qed.

Lemma digit_char_spec d :
  0 ≤ d < 10 →
  is_digit (digit_char d) = true ∧ digit_value (digit_char d) = d.
Proof.
  intros Hd.
  assert (Hcases : d = 0 ∨ d = 1 ∨ d = 2 ∨ d = 3 ∨ d = 4 ∨ d = 5
                   ∨ d = 6 ∨ d = 7 ∨ d = 8 ∨ d = 9) by lia.
  repeat destruct Hcases as [->|Hcases]; try subst d; by vm_compute.
Qed.

Lemma digits_value_snoc ds c :
  digits_value (ds ++ [c]) = 10 * digits_value ds + digit_value c.
Proof. unfold digits_value. by rewrite fold_left_app. Qed.

Lemma fixed_digits w n : forallb is_digit (fixed w n) = true.
Proof.
  revert n. induction w as [|w IH]; intros n; simpl; [done|].
  rewrite forallb_app, IH. simpl.
  by destruct (digit_char_spec (n mod 10)) as [-> _];
    [apply Z.mod_pos_bound|].
Qed.

Lemma fixed_length w n : length (fixed w n) = w.
Proof.
  revert n. induction w as [|w IH]; intros n; simpl; [done|].
  rewrite length_app, IH. simpl. lia.
Qed.

Lemma fixed_value w n :
  0 ≤ n < 10 ^ Z.of_nat w → digits_value (fixed w n) = n.
Proof.
  revert n. induction w as [|w IH]; intros n Hn.
  - simpl in *. unfold digits_value. simpl. lia.
  - simpl fixed. rewrite digits_value_snoc.
    destruct (digit_char_spec (n mod 10)) as [_ ->];
      [by apply Z.mod_pos_bound|].
    rewrite IH; [symmetry; apply Z.div_mod; lia|].
    rewrite Nat2Z.inj_succ, Z.pow_succ_r in Hn by lia.
    split; [apply Z.div_pos; lia|].
    apply Z.div_lt_upper_bound; lia.
Qed.

(** Reading back a number printed on a fixed width. *)
Lemma number_fixed w n :
  (0 < w)%nat → 0 ≤ n < 10 ^ Z.of_nat w → number (fixed w n) = Some n.
Proof.
  intros Hw Hn. unfold number.
  rewrite fixed_digits, fixed_length, fixed_value by done.
  by destruct w; [lia|].
Qed.

(** Replacing a character by itself changes nothing. *)
Lemma replace_from_same c l : replace_from [c] [c] 0 l = l.
Proof.
  induction l as [|a l IH]; simpl; [done|].
  destruct (Ascii.eqb c a) eqn:Hc; simpl; rewrite IH; [|done].
  apply Ascii.eqb_eq in Hc. by subst.
Qed.

Lemma replace_dot s : replace "." "." s = s.
Proof.
  unfold replace. change (chars ".") with ["."%char].
  by rewrite replace_from_same, text_chars.
Qed.

(** The bounds the constructor's checks give. *)
Lemma valid_fields_bounds y mo d h mi se :
  valid_fields y mo d h mi se = true →
  1 ≤ y ≤ 9999 ∧ 1 ≤ mo ≤ 12 ∧ 1 ≤ d ≤ 31
  ∧ 0 ≤ h ≤ 23 ∧ 0 ≤ mi ≤ 59 ∧ 0 ≤ se ≤ 59.
Proof.
  unfold valid_fields. rewrite !andb_true_iff, !Z.leb_le.
  assert (days_in_month y mo ≤ 31).
  { unfold days_in_month. repeat case_match; lia. }
  lia.
Qed.


(** Parsing a well-formed ISO-8601 timestamp gives back its fields. *)
Lemma iso8601_read_spelled y mo d h mi se suffix frac z :
  valid_fields y mo d h mi se = true →
  tail (chars suffix) = Some (frac, z) →
  iso8601_read (iso8601 y mo d h mi se suffix)
    = Some (mkDatetime y mo d h mi se frac z).
Proof.
  intros Hvalid Htail.
  destruct (valid_fields_bounds _ _ _ _ _ _ Hvalid)
    as (Hy & Hmo & Hd & Hh & Hmi & Hse).
  unfold iso8601_read, iso8601, stamp_chars.
  rewrite chars_text. cbn [fixed app].
  change (Ascii.eqb "T" "T" || Ascii.eqb "T" " ") with true. cbv iota.
  repeat match goal with
  | |- context [number [?a; ?b; digit_char (_ mod 10); digit_char (?n mod 10)]] =>
      change (number [a; b; digit_char (n / 10 mod 10); digit_char (n mod 10)])
        with (number (fixed 4 n));
      rewrite (number_fixed 4 n) by (simpl; lia)
  | |- context [number [digit_char (_ mod 10); digit_char (?n mod 10)]] =>
      change (number [digit_char (n / 10 mod 10); digit_char (n mod 10)])
        with (number (fixed 2 n));
      rewrite (number_fixed 2 n) by (simpl; lia)
  end.
  simpl. rewrite Htail. simpl. by rewrite Hvalid.
Qed.

End TextFacts.

(** * Facts about floats *)

Section FloatFacts.

Local Open Scope Q_scope.

Lemma pow2_pos z : 0 < pow2 z.
Proof. unfold pow2. apply Qpower_0_lt. reflexivity. Qed.

Lemma pow2_add a b : pow2 (a + b) == pow2 a * pow2 b.
Proof. unfold pow2. apply Qpower_plus. discriminate. Qed.

Lemma pow2_nonneg_Z z : (0 <= z)%Z → pow2 z == inject_Z (2 ^ z).
Proof. intros Hz. unfold pow2. by rewrite Zpower_Qpower. Qed.

Lemma pow2_le a b : (a <= b)%Z → pow2 a <= pow2 b.
Proof.
  intros Hab. replace b with (a + (b - a))%Z by lia.
  rewrite pow2_add.
  assert (H1 : 1 <= pow2 (b - a)).
  { rewrite pow2_nonneg_Z by lia.
    change 1 with (inject_Z 1). rewrite <- Zle_Qle.
    pose proof (Z.pow_pos_nonneg 2 (b - a)). lia. }
  pose proof (pow2_pos a). nra.
Qed.

Lemma pow2_lt_inv a b : pow2 a < pow2 b → (a < b)%Z.
Proof.
  intros Hlt. destruct (Z.lt_ge_cases a b) as [|Hge]; [done|].
  apply pow2_le in Hge. lra.
Qed.

Lemma round_half_even_near x :
  - (1 # 2) <= inject_Z (round_half_even x) - x <= 1 # 2.
Proof.
  pose proof (Qfloor_le x) as Hlo. pose proof (Qlt_floor x) as Hhi.
  rewrite inject_Z_plus in Hhi. change (inject_Z 1) with 1 in Hhi.
  unfold round_half_even.
  destruct (Qcompare_spec (x - inject_Z (Qfloor x)) (1 # 2)) as [He|Hl|Hg].
  - destruct (Z.even (Qfloor x)).
    + lra.
    + rewrite inject_Z_plus. change (inject_Z 1) with 1. lra.
  - lra.
  - rewrite inject_Z_plus. change (inject_Z 1) with 1. lra.
Qed.

Lemma Q_as_quotient q : q * inject_Z (Z.pos (Qden q)) == inject_Z (Qnum q).
Proof. destruct q as [n d]. unfold Qeq, inject_Z. simpl. lia. Qed.

Lemma ilog2_raw q :
  0 < q →
  let lg := (Z.log2 (Qnum q) - Z.log2 (Z.pos (Qden q)))%Z in
  pow2 (lg - 1) < q ∧ q < pow2 (lg + 1).
Proof.
  intros Hq lg.
  assert (Hn : (0 < Qnum q)%Z) by (destruct q; unfold Qlt in Hq; simpl in *; lia).
  set (a := Z.log2 (Qnum q)) in *. set (b := Z.log2 (Z.pos (Qden q))) in *.
  destruct (Z.log2_spec (Qnum q) Hn) as [Hna Hna'].
  destruct (Z.log2_spec (Z.pos (Qden q)) (Pos2Z.is_pos _)) as [Hdb Hdb'].
  fold a in Hna, Hna'. fold b in Hdb, Hdb'.
  assert (Ha : (0 <= a)%Z) by apply Z.log2_nonneg.
  assert (Hb : (0 <= b)%Z) by apply Z.log2_nonneg.
  pose proof (Q_as_quotient q) as Hquot.
  set (D := inject_Z (Z.pos (Qden q))) in *.
  set (N := inject_Z (Qnum q)) in *.
  assert (HD : 0 < D) by (unfold D; change 0 with (inject_Z 0);
                          rewrite <- Zlt_Qlt; lia).
  assert (HNa : pow2 a <= N)
    by (rewrite pow2_nonneg_Z by done; unfold N; by rewrite <- Zle_Qle).
  assert (HNa' : N < pow2 (a + 1)).
  { rewrite pow2_nonneg_Z by lia. unfold N. rewrite <- Zlt_Qlt.
    by rewrite <- Z.add_1_r in Hna'. }
  assert (HDb : pow2 b <= D)
    by (rewrite pow2_nonneg_Z by done; unfold D; by rewrite <- Zle_Qle).
  assert (HDb' : D < pow2 (b + 1)).
  { rewrite pow2_nonneg_Z by lia. unfold D. rewrite <- Zlt_Qlt.
    by rewrite <- Z.add_1_r in Hdb'. }
  split.
  - apply (Qmult_lt_r _ _ D HD). rewrite Hquot.
    assert (Hsplit : pow2 a == pow2 (lg - 1) * pow2 (b + 1)).
    { rewrite <- pow2_add. unfold lg. by replace (a - b - 1 + (b + 1))%Z with a by lia. }
    pose proof (pow2_pos (lg - 1)). nra.
  - apply (Qmult_lt_r _ _ D HD). rewrite Hquot.
    assert (Hsplit : pow2 (a + 1) == pow2 (lg + 1) * pow2 b).
    { rewrite <- pow2_add. unfold lg. by replace (a - b + 1 + b)%Z with (a + 1)%Z by lia. }
    pose proof (pow2_pos (lg + 1)). nra.
Qed.

Lemma ilog2_spec q :
  0 < q → pow2 (ilog2 q) <= q ∧ q < pow2 (ilog2 q + 1).
Proof.
  intros Hq. destruct (ilog2_raw q Hq) as [Hlo Hhi].
  unfold ilog2.
  set (lg := (Z.log2 (Qnum q) - Z.log2 (Z.pos (Qden q)))%Z) in *.
  destruct (Qcompare_spec q (pow2 lg)) as [He|Hl|Hg].
  - split; [rewrite He; apply Qle_refl|done].
  - split; [by apply Qlt_le_weak|].
    by replace (lg - 1 + 1)%Z with lg by lia.
  - split; [by apply Qlt_le_weak|done].
Qed.

(** In the range of the normal numbers [binary64] gives a finite float
    within half a unit in the last of its 53 places. *)
Lemma binary64_near neg q :
  pow2 (-1022) <= q → q < pow2 1023 →
  ∃ y, binary64 neg q = Finite y
       ∧ Qabs (y - (if neg then - q else q)) <= q * pow2 (-53).
Proof.
  intros Hlo Hhi.
  assert (Hq : 0 < q) by (pose proof (pow2_pos (-1022)); lra).
  destruct (ilog2_spec q Hq) as [HL HL'].
  set (L := ilog2 q) in *.
  assert (HL1 : (L < 1023)%Z) by (apply pow2_lt_inv; lra).
  assert (HL2 : (-1022 < L + 1)%Z) by (apply pow2_lt_inv; lra).
  unfold binary64. fold L.
  replace (Qnum q <=? 0)%Z with false
    by (symmetry; apply Z.leb_gt; destruct q; unfold Qlt in Hq; simpl in *; lia).
  replace (Z.max (L - 52) (-1074)) with (L - 52)%Z by lia.
  set (E := pow2 (L - 52)).
  assert (HE : 0 < E) by apply pow2_pos.
  set (x := q / E).
  assert (Hx : q == x * E) by (unfold x; field; lra).
  pose proof (round_half_even_near x) as Hm.
  set (m := round_half_even x) in *.
  assert (HEL : pow2 L == pow2 52 * E).
  { unfold E. rewrite <- pow2_add. by replace (52 + (L - 52))%Z with L by lia. }
  assert (HEL' : pow2 (L + 1) == pow2 53 * E).
  { unfold E. rewrite <- pow2_add.
    by replace (53 + (L - 52))%Z with (L + 1)%Z by lia. }
  assert (H52 : pow2 52 == inject_Z (2 ^ 52)) by by apply pow2_nonneg_Z.
  assert (H53 : pow2 53 == inject_Z (2 ^ 53)) by by apply pow2_nonneg_Z.
  assert (Hx52 : inject_Z (2 ^ 52) <= x) by nra.
  assert (Hx53 : x < inject_Z (2 ^ 53)) by nra.
  assert (Hm52 : (2 ^ 52 <= m)%Z).
  { apply Z.lt_succ_r, Z.succ_lt_mono. rewrite Zlt_Qlt.
    rewrite <- !Z.add_1_r, !inject_Z_plus. change (inject_Z 1) with 1. lra. }
  assert (Hm53 : (m <= 2 ^ 53)%Z).
  { apply Z.lt_succ_r. rewrite Zlt_Qlt.
    rewrite <- !Z.add_1_r, !inject_Z_plus. change (inject_Z 1) with 1. lra. }
  replace (m =? 0)%Z with false by (symmetry; apply Z.eqb_neq; lia).
  assert (Hlog : (Z.log2 m <= 53)%Z).
  { rewrite <- (Z.log2_pow2 53) by done. by apply Z.log2_le_mono. }
  replace (1024 <=? Z.log2 m + (L - 52))%Z with false
    by (symmetry; apply Z.leb_gt; lia).
  eexists. split; [reflexivity|].
  rewrite Qred_correct. fold E.
  assert (Hhalf : E * (1 # 2) == pow2 L * pow2 (-53)).
  { rewrite HEL. change (pow2 52) with (4503599627370496 # 1).
    change (pow2 (-53)) with (1 # 9007199254740992). field. }
  assert (Hc : 0 < pow2 (-53)) by apply pow2_pos.
  set (c := pow2 (-53)) in *. set (PL := pow2 L) in *.
  apply Qabs_Qle_condition.
  destruct neg; rewrite ?inject_Z_opp; split; nra.
Qed.

End FloatFacts.

(** * Facts about prices as texts *)

Section PriceFacts.

Lemma swap_cons c new a l :
  (a :: l) ≫= swap c new
  = (if Ascii.eqb c a then new else [a]) ++ l ≫= swap c new.
Proof. done. Qed.

Lemma replace_from_single c new l :
  replace_from [c] new 0 l = l ≫= swap c new.
Proof.
  induction l as [|a l IH]; [done|].
  cbn [replace_from starts_with length Nat.sub]. rewrite andb_true_r.
  rewrite IH, swap_cons. by destruct (Ascii.eqb c a).
Qed.

Lemma swap_other c new l :
  Forall (λ a, Ascii.eqb c a = false) l → l ≫= swap c new = l.
Proof.
  induction 1 as [|a l Ha _ IH]; [done|].
  by rewrite swap_cons, Ha, IH.
Qed.

Lemma replace_single c new l :
  replace (text [c]) (text new) (text l) = text (l ≫= swap c new).
Proof. unfold replace. by rewrite !chars_text, replace_from_single. Qed.

Lemma is_decimal_digit_bounds d : is_decimal_digit d = true → 0 ≤ d < 10.
Proof. unfold is_decimal_digit. rewrite andb_true_iff. lia. Qed.

Lemma digits_are_digits ds :
  forallb is_decimal_digit ds = true →
  Forall (λ a, is_digit a = true) (digits ds).
Proof.
  induction ds as [|d ds IH]; intros Hds; [by constructor|].
  simpl in Hds. apply andb_true_iff in Hds as [Hd Hds].
  constructor; [|by apply IH].
  by apply digit_char_spec, is_decimal_digit_bounds.
Qed.

Lemma digits_value_digits ds :
  forallb is_decimal_digit ds = true →
  digits_value (digits ds) = decimal ds.
Proof.
  unfold digits_value, decimal. generalize 0.
  induction ds as [|d ds IH]; intros acc Hds; [done|].
  simpl in Hds. apply andb_true_iff in Hds as [Hd Hds]. simpl.
  rewrite (proj2 (digit_char_spec d (is_decimal_digit_bounds d Hd))).
  by apply IH.
Qed.

Lemma digits_app ds1 ds2 : digits (ds1 ++ ds2) = digits ds1 ++ digits ds2.
Proof. apply fmap_app. Qed.

Lemma not_digit_other c a :
  is_digit c = false → is_digit a = true → Ascii.eqb c a = false.
Proof.
  intros Hc Ha. apply Ascii.eqb_neq. intros ->. congruence.
Qed.

Lemma digit_plain a :
  is_digit a = true →
  is_space a = false ∧ a ≠ "-"%char ∧ a ≠ "+"%char ∧ a ≠ "."%char
  ∧ lower a ≠ "i"%char ∧ lower a ≠ "n"%char.
Proof.
  destruct a as [[] [] [] [] [] [] [] []]; vm_compute; intros; try done.
Qed.

Lemma lstrip_plain l :
  Forall (λ a, is_space a = false) l → lstrip l = l.
Proof. destruct 1 as [|a l Ha _]; [done|]. simpl. by rewrite Ha. Qed.

Lemma strip_plain l :
  Forall (λ a, is_space a = false) l → strip l = l.
Proof.
  intros Hl. unfold strip. rewrite (lstrip_plain l Hl).
  rewrite lstrip_plain by by apply Forall_rev. apply rev_involutive.
Qed.

Lemma span_digits_app ds rest :
  Forall (λ a, is_digit a = true) ds →
  match rest with c :: _ => is_digit c = false | [] => True end →
  span_digits (ds ++ rest) = (ds, rest).
Proof.
  intros Hds Hrest. induction Hds as [|a ds Ha _ IH].
  - destruct rest as [|c rest]; [done|]. simpl. by rewrite Hrest.
  - simpl. by rewrite Ha, IH.
Qed.

Lemma span_digits_all ds :
  Forall (λ a, is_digit a = true) ds → span_digits ds = (ds, []).
Proof.
  intros Hds. rewrite <- (app_nil_r ds) at 1. by apply span_digits_app.
Qed.

Lemma scale10_decimals m k :
  scale10 m (0 - Z.of_nat k)
  = Qred (m # Z.to_pos (10 ^ Z.of_nat k)).
Proof.
  unfold scale10. destruct k as [|k].
  - simpl. by rewrite Z.mul_1_r.
  - replace (0 <=? 0 - Z.of_nat (S k)) with false
      by (symmetry; apply Z.leb_gt; lia).
    by replace (- (0 - Z.of_nat (S k))) with (Z.of_nat (S k)) by lia.
Qed.

Lemma grouped_nil groups : grouped [] groups = digits (concat groups).
Proof.
  induction groups as [|g [|g' rest] IH]; [done|by simpl; rewrite app_nil_r|].
  change (grouped [] (g :: g' :: rest))
    with (digits g ++ [] ++ grouped [] (g' :: rest)).
  rewrite IH. simpl. by rewrite !digits_app.
Qed.

Lemma grouped_ungrouped c groups :
  is_digit c = false →
  forallb (λ g, negb (length g =? 0)%nat && forallb is_decimal_digit g)
          groups = true →
  grouped [c] groups ≫= swap c [] = digits (concat groups).
Proof.
  intros Hc. induction groups as [|g [|g' rest] IH]; intros Hwf; [done| |].
  - simpl in *. rewrite app_nil_r. apply swap_other.
    apply andb_true_iff in Hwf as [Hg _]. apply andb_true_iff in Hg as [_ Hg].
    eapply Forall_impl; [by apply digits_are_digits|].
    intros a Ha. by apply not_digit_other.
  - change (grouped [c] (g :: g' :: rest))
      with (digits g ++ [c] ++ grouped [c] (g' :: rest)).
    change (forallb _ (g :: g' :: rest))
      with ((negb (length g =? 0)%nat && forallb is_decimal_digit g)
            && forallb (λ g, negb (length g =? 0)%nat
                             && forallb is_decimal_digit g) (g' :: rest))
      in Hwf.
    apply andb_true_iff in Hwf as [Hg Hrest].
    apply andb_true_iff in Hg as [_ Hg].
    rewrite !bind_app, IH by done.
    rewrite swap_other.
    + rewrite swap_cons, Ascii.eqb_refl. simpl.
      by rewrite (digits_app g).
    + eapply Forall_impl; [by apply digits_are_digits|].
      intros a Ha. by apply not_digit_other.
Qed.

Lemma sign_other a l :
  a ≠ "-"%char → a ≠ "+"%char → sign (a :: l) = (false, a :: l).
Proof.
  intros Hm Hp.
  destruct a as [[] [] [] [] [] [] [] []]; try done.
Qed.

Lemma not_a_word a l :
  lower a ≠ "i"%char → lower a ≠ "n"%char →
  let word := text (lower <$> a :: l) in
  (String.eqb word "inf" || String.eqb word "infinity")%bool = false
  ∧ String.eqb word "nan" = false.
Proof.
  intros Hi Hn. apply Ascii.eqb_neq in Hi, Hn.
  cbn [fmap list_fmap text string_of_list_ascii String.eqb].
  by rewrite Hi, Hn.
Qed.

Lemma forallb_concat {A} (f : A → bool) (ls : list (list A)) :
  forallb (λ l, forallb f l) ls = true → forallb f (concat ls) = true.
Proof.
  induction ls as [|l ls IH]; [done|]. simpl.
  rewrite forallb_app, !andb_true_iff. intros [Hl Hls]. auto.
Qed.

Lemma well_formed_price_inv p :
  well_formed_price p = true →
  (∃ d ds, concat (whole p) = d :: ds)
  ∧ forallb is_decimal_digit (concat (whole p)) = true
  ∧ forallb is_decimal_digit (default [] (decimals p)) = true
  ∧ forallb (λ g, negb (length g =? 0)%nat && forallb is_decimal_digit g)
            (whole p) = true.
Proof.
  unfold well_formed_price. rewrite !andb_true_iff.
  intros [[Hne Hgroups] Hdec]. repeat split; [| | |done].
  - destruct (whole p) as [|[|d g] rest]; [done|done|]. simpl. eauto.
  - apply forallb_concat. clear Hne.
    induction (whole p) as [|g rest IH]; [done|]. simpl in *.
    apply andb_true_iff in Hgroups as [Hg Hrest].
    apply andb_true_iff in Hg as [_ Hg]. rewrite Hg. by apply IH.
  - by destruct (decimals p).
Qed.

(** [float] on a signed decimal numeral. *)
Lemma float_decimal p :
  well_formed_price p = true →
  float (text (sign_chars (minus p) ++ digits (concat (whole p)) ++
               decimal_part "." (decimals p)))
  = Some (binary64 (is_negative p) (magnitude p)).
Proof.
  intros Hwf.
  destruct (well_formed_price_inv p Hwf) as ((d & ds & Hd) & Hwhole & Hdec & _).
  pose proof (digits_are_digits _ Hwhole) as HD.
  pose proof (digits_are_digits _ Hdec) as HF.
  unfold magnitude, is_negative.
  destruct p as [sg wh dec]. cbn [minus whole decimals] in *.
  set (D := digits (concat wh)) in *.
  assert (Hfirst : ∃ a D', D = a :: D' ∧ is_digit a = true).
  { unfold D in *. rewrite Hd in *. simpl. eexists _, _. split; [done|].
    by inversion HD. }
  destruct Hfirst as (a & D' & HDa & Ha).
  destruct (digit_plain a Ha) as (_ & Hminus & Hplus & _ & Hi & Hn).
  unfold float. rewrite chars_text.
  rewrite strip_plain.
  2:{ rewrite !Forall_app. split; [by destruct sg as [[]|]; repeat constructor|].
      split; [eapply Forall_impl; [exact HD|]; intros c Hc;
              by apply digit_plain|].
      destruct dec as [fd|]; [|by constructor]. simpl in *.
      constructor; [done|]. eapply Forall_impl; [exact HF|].
      intros c Hc. by apply digit_plain. }
  assert (Hsign : sign (sign_chars sg ++ D ++ decimal_part "." dec)
                  = (match sg with Some true => true | _ => false end,
                     D ++ decimal_part "." dec)).
  { destruct sg as [[]|]; [done|done|]. simpl. rewrite HDa.
    by apply sign_other. }
  rewrite Hsign.
  destruct (not_a_word a (D' ++ decimal_part "." dec) Hi Hn) as [Hinf Hnan].
  cbv zeta in Hinf, Hnan. rewrite app_comm_cons, <- HDa in Hinf, Hnan.
  rewrite Hinf, Hnan.
  rewrite span_digits_app; [|done|by destruct dec].
  assert (Hfrac : match decimal_part "." dec with
                  | "."%char :: t => span_digits t
                  | _ => ([], decimal_part "." dec)
                  end = (digits (default [] dec), [])).
  { destruct dec as [fd|]; [|done]. simpl in *. by apply span_digits_all. }
  rewrite Hfrac.
  replace (length D =? 0)%nat with false by by rewrite HDa.
  cbn [andb exponent mbind option_bind].
  unfold D. rewrite <- digits_app, digits_value_digits
    by (rewrite forallb_app; by rewrite Hwhole, Hdec).
  unfold digits. rewrite length_fmap.
  by rewrite scale10_decimals.
Qed.

Lemma plain_separators_inv n :
  plain_separators n = true →
  (is_ascii (point n) = true ∧ is_digit (point n) = false
   ∧ Ascii.eqb (point n) "+" = false ∧ Ascii.eqb (point n) "-" = false)
  ∧ ∀ g, grouping n = Some g →
      is_ascii g = true ∧ is_digit g = false
      ∧ Ascii.eqb g "+" = false ∧ Ascii.eqb g "-" = false
      ∧ Ascii.eqb g (point n) = false.
Proof.
  unfold plain_separators. rewrite !andb_true_iff, !negb_true_iff.
  intros [Hpoint Hgrouping]. split; [tauto|].
  intros g Hg. rewrite Hg in Hgrouping.
  rewrite !andb_true_iff, !negb_true_iff in Hgrouping. tauto.
Qed.

Lemma sign_chars_swap c new sg :
  Ascii.eqb c "+" = false → Ascii.eqb c "-" = false →
  sign_chars sg ≫= swap c new = sign_chars sg.
Proof.
  intros Hp Hm. apply swap_other.
  destruct sg as [[]|]; by repeat constructor.
Qed.

Lemma digits_swap c new ds :
  is_digit c = false → forallb is_decimal_digit ds = true →
  digits ds ≫= swap c new = digits ds.
Proof.
  intros Hc Hds. apply swap_other.
  eapply Forall_impl; [by apply digits_are_digits|].
  intros a Ha. by apply not_digit_other.
Qed.

(** [locale.atof] on the text of a price: the float nearest to the
    number the price denotes. *)
Lemma atof_render n p :
  plain_separators n = true → well_formed_price p = true →
  atof (locale_of n) (render_price n p)
  = Some (binary64 (is_negative p) (magnitude p)).
Proof.
  intros Hn Hwf.
  destruct (plain_separators_inv n Hn) as [(Hpa & Hpd & Hpp & Hpm) Hg].
  destruct (well_formed_price_inv p Hwf) as (_ & Hwhole & Hdec & Hgroups).
  rewrite <- (float_decimal p Hwf).
  unfold atof, locale_of, render_price.
  cbn [thousands_sep decimal_point]. 
  set (D := digits (concat (whole p))).
  assert (Hungroup :
    (if negb (String.eqb (text (option_list (grouping n))) "")
     then replace_bytes (text (option_list (grouping n))) ""
            (text (sign_chars (minus p) ++ grouped (option_list (grouping n)) (whole p) ++
                   decimal_part (point n) (decimals p)))
     else Some (text (sign_chars (minus p) ++ grouped (option_list (grouping n)) (whole p) ++
                      decimal_part (point n) (decimals p))))
    = Some (text (sign_chars (minus p) ++ D ++ decimal_part (point n) (decimals p)))).
  { destruct (grouping n) as [g|] eqn:Eg.
    - destruct (Hg g eq_refl) as (Hga & Hgd & Hgp & Hgm & Hgpt).
      change (option_list (Some g)) with [g].
      change (text [g]) with (String g "").
      cbn [String.eqb negb]. unfold replace_bytes.
      change (chars (String g "")) with [g]. cbn [forallb]. rewrite Hga.
      cbn [andb]. f_equal.
      change (String g "") with (text [g]).
      change "" with (text []) at 1. rewrite replace_single.
      rewrite !bind_app, sign_chars_swap by done.
      rewrite grouped_ungrouped by done. fold D.
      do 3 f_equal. destruct (decimals p) as [fd|]; [|done].
      cbn [decimal_part]. rewrite swap_cons, Hgpt.
      cbn [default] in Hdec. by rewrite digits_swap.
    - change (option_list None) with (@nil ascii).
      change (text []) with "". cbn [String.eqb negb].
      by rewrite grouped_nil. }
  rewrite Hungroup. cbn [mbind option_bind].
  change (text [point n]) with (String (point n) "").
  cbn [String.eqb negb]. unfold replace_bytes.
  change (chars (String (point n) "")) with [point n].
  cbn [forallb]. rewrite Hpa. cbn [andb mbind option_bind].
  change (String (point n) "") with (text [point n]).
  change "." with (text ["."%char]) at 1. rewrite replace_single.
  rewrite !bind_app, sign_chars_swap by done.
  unfold D at 1. rewrite digits_swap by done.
  do 4 f_equal. destruct (decimals p) as [fd|]; [|done].
  cbn [decimal_part]. rewrite swap_cons, Ascii.eqb_refl.
  cbn [default] in Hdec. by rewrite digits_swap.
Qed.

End PriceFacts.


(** * Facts about the world *)

Section WorldFacts.
Context `{G : Gnumeric} `{P : Dateutil}.

Lemma bind_ok {A B} (m : M A) (k : A → M B) w x w' :
  m w = (inr x, w') → bind m k w = k x w'.
Proof. unfold bind. by intros ->. Qed.

Lemma deref_ok wb w d : heap w !! wb = Some d → deref wb w = (inr d, w).
Proof. unfold deref, bind, get_world, expect, ret. by intros ->. Qed.

Lemma mutate_ok wb f w d :
  heap w !! wb = Some d →
  mutate wb f w
  = (inr tt, mkWorld (cc w) (ioc w) (disk w) (<[wb := f d]> (heap w))).
Proof.
  intros Hd. unfold mutate.
  by rewrite (bind_ok _ _ _ _ _ (deref_ok _ _ _ Hd)).
Qed.

Lemma alloc_ok d w :
  alloc d w
  = (inr (length (heap w)),
     mkWorld (cc w) (ioc w) (disk w) (heap w ++ [d])).
Proof. done. Qed.

Lemma global_ok var field w :
  field w = Some tt → global var field w = (inr tt, w).
Proof. unfold global, bind, get_world, expect, ret. by intros ->. Qed.

Lemma peek_Some sheet w s :
  peek sheet w = Some s →
  ∃ d, heap w !! sheet.1 = Some d ∧ sheets d !! sheet.2 = Some s.
Proof.
  unfold peek. destruct (heap w !! sheet.1) as [d|]; [|done].
  simpl. eauto.
Qed.

Lemma sheet_read_peek {A} sheet (f : Sheet → A) w s :
  peek sheet w = Some s → sheet_read sheet f w = (inr (f s), w).
Proof.
  intros (d & Hd & Hs)%peek_Some. unfold sheet_read.
  rewrite (bind_ok _ _ _ _ _ (deref_ok _ _ _ Hd)).
  unfold bind, expect, ret. by rewrite Hs.
Qed.

Lemma sheet_update_poke sheet f w s :
  peek sheet w = Some s →
  sheet_update sheet f w = (inr tt, poke sheet (f s) w).
Proof.
  intros Hpeek. unfold sheet_update.
  rewrite (bind_ok _ _ _ _ _ (sheet_read_peek _ id _ _ Hpeek)).
  destruct (peek_Some _ _ _ Hpeek) as (d & Hd & Hs).
  rewrite (mutate_ok _ _ _ _ Hd). unfold poke. by rewrite Hd.
Qed.

Lemma sheet_try_poke sheet f w s s' :
  peek sheet w = Some s → f s = inr s' →
  sheet_try sheet f w = (inr tt, poke sheet s' w).
Proof.
  intros Hpeek Hf. unfold sheet_try.
  rewrite (bind_ok _ _ _ _ _ (sheet_read_peek _ id _ _ Hpeek)).
  unfold id. rewrite Hf. unfold bind at 1, lift, ret.
  exact (sheet_update_poke sheet (λ _, s') w s Hpeek).
Qed.

Lemma peek_poke sheet w s s' :
  peek sheet w = Some s → peek sheet (poke sheet s' w) = Some s'.
Proof.
  intros (d & Hd & Hs)%peek_Some. unfold poke, peek. rewrite Hd. simpl.
  rewrite list_lookup_insert_eq by (by eapply lookup_lt_Some). simpl.
  apply list_lookup_insert_eq. by eapply lookup_lt_Some.
Qed.

(** A new document at the end of the heap, and its first sheet. *)
Lemma peek_fresh w c i k d s :
  sheets d !! 0%nat = Some s →
  peek (length (heap w), 0%nat) (mkWorld c i k (heap w ++ [d])) = Some s.
Proof.
  intros Hs. unfold peek. simpl.
  by rewrite list_lookup_middle.
Qed.

Lemma poke_fresh w c i k d (s' : Sheet) :
  poke (length (heap w), 0%nat) s' (mkWorld c i k (heap w ++ [d]))
  = mkWorld c i k (heap w ++ [mkWorkbook (uri d) (<[0%nat := s']> (sheets d))]).
Proof.
  unfold poke. simpl. rewrite list_lookup_middle by done.
  f_equal. rewrite insert_app_r_alt by done.
  by rewrite Nat.sub_diag.
Qed.

(** Saving the document last put into memory under its own URI. *)
Lemma wb_save_at_end w d u' dk ok :
  save_as d (for_file_name (uri d)) (uri d) (disk w) = (ok, u', dk) →
  wb_save (length (heap w)) None
          (mkWorld (Some tt) (Some tt) (disk w) (heap w ++ [d]))
  = (if ok then inr tt else inl (IOError "Failed to save workbook"),
     mkWorld (Some tt) (Some tt) dk (heap w ++ [mkWorkbook u' (sheets d)])).
Proof.
  intros Hsave. unfold wb_save.
  assert (Hd : heap (mkWorld (Some tt) (Some tt) (disk w) (heap w ++ [d]))
               !! length (heap w) = Some d)
    by by apply list_lookup_middle.
  erewrite bind_ok;
    [|by rewrite (bind_ok _ _ _ _ _ (deref_ok _ _ _ Hd))].
  rewrite (bind_ok _ _ _ _ _ (deref_ok _ _ _ Hd)).
  rewrite (bind_ok _ _ _ _ _
             (global_ok "cc" cc (mkWorld (Some tt) _ _ _) eq_refl)).
  unfold bind at 1, get_world. cbn [disk cc ioc heap]. rewrite Hsave.
  unfold bind, put_world, raise, ret.
  rewrite insert_app_r_alt by done. rewrite Nat.sub_diag.
  by destruct ok.
Qed.

Lemma poke_poke sheet (s1 s2 : Sheet) w :
  poke sheet s2 (poke sheet s1 w) = poke sheet s2 w.
Proof.
  unfold poke. destruct (heap w !! sheet.1) as [d|] eqn:Hd; simpl.
  - rewrite list_lookup_insert_eq by (by eapply lookup_lt_Some). simpl.
    by rewrite !list_insert_insert_eq.
  - by rewrite Hd.
Qed.

Lemma poke_peek sheet w s : peek sheet w = Some s → poke sheet s w = w.
Proof.
  intros (d & Hd & Hs)%peek_Some. unfold poke. rewrite Hd.
  rewrite (list_insert_id (sheets d)) by done.
  destruct d, w; simpl in *. by rewrite list_insert_id.
Qed.

Lemma sheet_by_index_ok wb i w s :
  peek (wb, i) w = Some s → sheet_by_index wb i w = (inr (wb, i), w).
Proof.
  intros (d & Hd & Hs)%peek_Some. simpl in *. unfold sheet_by_index.
  rewrite (bind_ok _ _ _ _ _ (deref_ok _ _ _ Hd)).
  unfold bind, expect, ret. by rewrite Hs.
Qed.

Lemma gnm_init_ok w :
  gnm_init w = (inr tt, mkWorld (Some tt) (Some tt) (disk w) (heap w)).
Proof. done. Qed.

(** The locator where no regular file exists. *)
Lemma wb_open_new w filename :
  os_path_isfile (disk w) filename = false →
  wb_open filename w
  = (inr (length (heap w)),
     mkWorld (cc w) (ioc w) (disk w)
             (heap w ++ [mkWorkbook (filename_to_uri filename)
                                    [blank_sheet 0]])).
Proof.
  intros Hfile.
  unfold wb_open. unfold bind at 1, get_world. rewrite Hfile.
  unfold Workbook_new_with_sheets.
  rewrite (bind_ok _ _ _ _ _ (alloc_ok _ _)).
  erewrite bind_ok;
    [|apply mutate_ok; simpl; by apply list_lookup_middle].
  unfold ret. simpl. do 2 f_equal.
  rewrite insert_app_r_alt by done. by rewrite Nat.sub_diag.
Qed.

(** The locator where a regular file exists. *)
Lemma wb_open_existing w filename :
  os_path_isfile (disk w) filename = true →
  ioc w = Some tt →
  wb_open filename w
  = match new_from_uri (filename_to_uri filename) (disk w) with
    | Some d =>
        (inr (length (heap w)),
         mkWorld (cc w) (ioc w) (disk w) (heap w ++ [d]))
    | None =>
        (inl (AttributeError "'NoneType' object has no attribute 'props'"),
         w)
    end.
Proof.
  intros Hfile Hioc.
  unfold wb_open. unfold bind at 1, get_world. rewrite Hfile.
  rewrite (bind_ok _ _ _ _ _ (global_ok _ _ _ Hioc)).
  destruct (new_from_uri _ _) as [d|]; [|done].
  unfold expect. unfold bind at 1, ret.
  by rewrite (bind_ok _ _ _ _ _ (alloc_ok _ _)).
Qed.

Lemma wb_open_located w d :
  ioc w = Some tt →
  located w d →
  wb_open "btcprices.gnumeric" w
  = (inr (length (heap w)),
     mkWorld (cc w) (ioc w) (disk w) (heap w ++ [d])).
Proof.
  intros Hioc [[Hfile ->]|[Hfile Hload]].
  - by apply wb_open_new.
  - by rewrite wb_open_existing, Hload.
Qed.

(** The name check of the run. *)
Lemma rename_step sheet w s :
  peek sheet w = Some s →
  (if negb (String.eqb (name s) title)
   then sheet_update sheet (set_name title) else ret tt) w
  = (inr tt, poke sheet (retitle s) w).
Proof.
  intros Hpeek. unfold retitle.
  destruct (negb (String.eqb (name s) title)).
  - by apply sheet_update_poke.
  - by rewrite poke_peek.
Qed.

(** A run in which every step before the save goes through arrives at
    the save with the one document in memory carrying the title row,
    the timestamp, the price and the price format. *)
Lemma main_reaches_save env w d s0 r updated rate loc tdate s3 s4 :
  located w d →
  sheets d !! 0%nat = Some s0 →
  find_row (ensure_schema (retitle s0)) = Some r →
  quoted env updated rate loc →
  dateutil_parse updated = Some tdate →
  write_timestamp tdate r (ensure_schema (retitle s0)) = inr s3 →
  write_price loc rate r s3 = inr s4 →
  main env w
  = wb_save (length (heap w)) None
      (mkWorld (Some tt) (Some tt) (disk w)
         (heap w ++ [mkWorkbook (uri d)
                       (<[0%nat := format_price r s4]> (sheets d))])).
Proof.
  intros Hloc Hs0 Hrow Hquote Hparse Hts Hprice.
  destruct Hquote as (data & time & bpi & usd & Hresp & Htime & Hupd
                      & Hbpi & Husd & Hrate & Hlocale).
  set (sheet := (length (heap w), 0%nat)).
  set (w1 := mkWorld (Some tt) (Some tt) (disk w) (heap w ++ [d])).
  assert (Hpeek1 : peek sheet w1 = Some s0) by by apply peek_fresh.
  unfold main.
  rewrite (bind_ok _ _ _ _ _ (gnm_init_ok w)).
  rewrite (bind_ok _ _ _ _ _
             (wb_open_located (mkWorld _ _ (disk w) (heap w)) d
                eq_refl Hloc)).
  simpl. fold w1.
  rewrite (bind_ok _ _ _ _ _ (sheet_by_index_ok _ _ _ _ Hpeek1)).
  fold sheet.
  rewrite (bind_ok _ _ _ _ _ (sheet_read_peek _ name _ _ Hpeek1)).
  rewrite (bind_ok _ _ _ _ _ (rename_step _ _ _ Hpeek1)).
  pose proof (peek_poke _ _ _ (retitle s0) Hpeek1) as Hpeek2.
  rewrite (bind_ok _ _ _ _ _ (sheet_update_poke _ ensure_schema _ _ Hpeek2)).
  rewrite poke_poke.
  pose proof (peek_poke _ _ _ (ensure_schema (retitle s0)) Hpeek1) as Hpeek3.
  rewrite (bind_ok _ _ _ _ _ (sheet_read_peek _ find_row _ _ Hpeek3)).
  rewrite Hrow, Hresp. unfold lift at 1. unfold bind at 1, ret at 1.
  rewrite Htime. unfold lift at 1. unfold bind at 1, ret at 1.
  rewrite Hupd. unfold lift at 1. unfold bind at 1, ret at 1.
  unfold as_text at 1, lift at 1. unfold bind at 1, ret at 1.
  rewrite Hparse. unfold expect at 1. unfold bind at 1, ret at 1.
  unfold expect at 1. unfold bind at 1, ret at 1.
  rewrite (bind_ok _ _ _ _ _ (sheet_try_poke _ _ _ _ _ Hpeek3 Hts)).
  rewrite poke_poke.
  pose proof (peek_poke _ _ _ s3 Hpeek1) as Hpeek4.
  rewrite Hlocale. unfold expect at 1. unfold bind at 1, ret at 1.
  rewrite Hbpi. unfold lift at 1. unfold bind at 1, ret at 1.
  rewrite Husd. unfold lift at 1. unfold bind at 1, ret at 1.
  rewrite Hrate. unfold lift at 1. unfold bind at 1, ret at 1.
  unfold as_replaceable at 1, lift at 1. unfold bind at 1, ret at 1.
  rewrite (bind_ok _ _ _ _ _ (sheet_try_poke _ _ _ _ _ Hpeek4 Hprice)).
  rewrite poke_poke.
  pose proof (peek_poke _ _ _ s4 Hpeek1) as Hpeek5.
  rewrite (bind_ok _ _ _ _ _
             (sheet_update_poke _ (format_price r) _ _ Hpeek5)).
  rewrite poke_poke.
  unfold sheet, w1. by rewrite poke_fresh.
Qed.

End WorldFacts.

(** * The row-end finder, the schema ensurer and the price format *)

Section SheetClaims.
Context `{G : Gnumeric} `{P : Dateutil}.

Implicit Types (s : Sheet) (r row col : Z).

(** On a sheet whose column 1 holds a value in each of the rows
    2..2+N-1 and no value in row 2+N, the row-end finder returns 2+N,
    provided row 2+N is a row of the sheet (2+N is below the sheet's row
    count, the bound of the scan). *)
Lemma finder_returns_end_within_sheet s (N : Z) :
  0 ≤ N →
  2 + N < rows s →
  (∀ i, 2 ≤ i < 2 + N → cell_get_value s 1 i ≠ None) →
  cell_get_value s 1 (2 + N) = None →
  find_row s = Some (2 + N).
Proof.
  intros HN Hin Hfilled Hempty.
  apply find_row_first; [lia|done|done].
Qed.

(** C2.  The schema ensurer is idempotent: a second run leaves the sheet
    (header cells, header styles, and the journal of writes) exactly as
    the first run left it; and on a sheet whose sentinel cell (1,1) holds
    a value the step changes nothing and journals no write. *)
Theorem ensure_schema_idempotent s :
  ensure_schema (ensure_schema s) = ensure_schema s
  ∧ (cell_get_value s 1 1 ≠ None →
     ensure_schema s = s ∧ journal (ensure_schema s) = journal s).
Proof.
  assert (Hinit : ∀ s0, cell_get_value s0 1 1 ≠ None → ensure_schema s0 = s0).
  { intros s0 Hset. unfold ensure_schema.
    apply is_None_false in Hset. by rewrite Hset. }
  split.
  - apply Hinit. unfold ensure_schema.
    destruct (is_None (cell_get_value s 1 1)) eqn:Hsentinel.
    + apply (cell_get_value_Some _ _ _ (Text "Timestamp (UTC)")).
      simpl. rewrite lookup_insert_ne by done. apply lookup_insert_eq.
    + by apply is_None_false.
  - intros Hset. by rewrite Hinit.
Qed.

(** C7.  The price format: the style laid by [format_price] carries the
    number-format pattern "$0,000" and nothing else, its range is the
    single cell (2,row)-(2,row), the style in force at that cell gets
    the pattern, and the style at every other position, all cells, the
    name and the row count stay as they were. *)
Theorem format_price_single_cell s row :
  let s' := format_price row s in
  journal s' =
    WStyle (mkRange 2 row 2 row) (mkStyle None (Some "$0,000")) :: journal s
  ∧ positions (mkRange 2 row 2 row) = [(2, row)]
  ∧ style_at s' 2 row =
      overlay (mkStyle None (Some "$0,000")) (style_at s 2 row)
  ∧ format_text (style_at s' 2 row) = Some "$0,000"
  ∧ font_bold (style_at s' 2 row) = font_bold (style_at s 2 row)
  ∧ (∀ c r, (c, r) ≠ (2, row) → style_at s' c r = style_at s c r)
  ∧ cells s' = cells s ∧ name s' = name s ∧ rows s' = rows s.
Proof.
  pose proof (positions_single 2 row) as Hpos.
  unfold Range_init in Hpos.
  assert (Hat : style_at (format_price row s) 2 row =
                overlay (mkStyle None (Some "$0,000")) (style_at s 2 row)).
  { unfold style_at, format_price, apply_style, Range_init; simpl.
    rewrite Hpos; simpl. unfold restyle. by rewrite lookup_insert_eq. }
  simpl. repeat split; try done.
  - by rewrite Hat.
  - by rewrite Hat.
  - intros c r Hother.
    unfold style_at, format_price, apply_style, Range_init; simpl.
    rewrite Hpos; simpl. unfold restyle. by rewrite lookup_insert_ne.
Qed.

(** C9.  On a sheet with data rows to visit (more than 2 rows) whose
    column 1 holds a value in every row 2..rows-1, the scan runs to the
    end and leaves the target row at rows-1, a row that is not empty;
    the timestamp and price writes that follow replace what columns 1
    and 2 of that row held, and a run that finds its titled sheet in this
    state goes on to save the document with these writes in that row. *)
Theorem exhausted_scan_overwrites_last_row
    s (tdate : datetime) (loc : Locale) (rate : string) (s1 s2 : Sheet) :
  2 < rows s →
  (∀ i, 2 ≤ i < rows s → cell_get_value s 1 i ≠ None) →
  find_row s = Some (rows s - 1)
  ∧ cell_get_value s 1 (rows s - 1) ≠ None
  ∧ (write_timestamp tdate (rows s - 1) s = inr s1 →
     write_price loc rate (rows s - 1) s1 = inr s2 →
     (∃ text x,
        strftime tdate time_format = inr text
        ∧ atof loc rate = Some x
        ∧ cells s2 !! (1, rows s - 1) = Some (Text text)
        ∧ cells s2 !! (2, rows s - 1) = Some (Typed (VFloat x)))
     ∧ (∀ env w d s0 updated,
          s = ensure_schema (retitle s0) →
          located w d → sheets d !! 0%nat = Some s0 →
          quoted env updated rate loc →
          dateutil_parse updated = Some tdate →
          main env w
          = wb_save (length (heap w)) None
              (mkWorld (Some tt) (Some tt) (disk w)
                 (heap w ++ [mkWorkbook (uri d)
                               (<[0%nat := format_price (rows s - 1) s2]>
                                  (sheets d))])))).
Proof.
  intros Hrows Hfilled. split; [by apply find_row_last|].
  split; [apply Hfilled; lia|].
  intros Hts Hprice. split.
  - apply write_timestamp_inv in Hts as (text & Htext & ->).
    apply write_price_inv in Hprice as (x & Hx & ->).
    exists text, x. repeat split; try done.
    + rewrite cells_cell_set_value, cells_cell_set_text.
      rewrite decide_False, decide_True; done.
    + rewrite cells_cell_set_value. by rewrite decide_True.
  - intros env w d s0 updated -> Hloc Hs0 Hquote Hparse.
    apply (main_reaches_save env w d s0 _ updated rate loc tdate s1 s2);
      try done.
    by apply find_row_last.
Qed.

(** C10 (as amended).  The scan looks at column 1 only: the first row at
    index 2 or more (inside the sheet) whose column-1 cell is empty is
    the target row even when its column-2 cell holds a value; that value
    is still there after the timestamp write and is replaced by the price
    write, and a run that finds its titled sheet in this state goes on to
    save the document with the new price in that row. *)
Theorem first_empty_row_price_overwritten
    s r (old : Value) (tdate : datetime) (loc : Locale) (rate : string)
    (s1 s2 : Sheet) :
  2 ≤ r < rows s →
  (∀ i, 2 ≤ i < r → cell_get_value s 1 i ≠ None) →
  cell_get_value s 1 r = None →
  cell_get_value s 2 r = Some old →
  find_row s = Some r
  ∧ (write_timestamp tdate r s = inr s1 →
     write_price loc rate r s1 = inr s2 →
     (∃ x, atof loc rate = Some x
           ∧ cell_get_value s1 2 r = Some old
           ∧ cell_get_value s2 2 r = Some (VFloat x)
           ∧ journal s2 = WValue 2 r (VFloat x) :: journal s1)
     ∧ (∀ env w d s0 updated,
          s = ensure_schema (retitle s0) →
          located w d → sheets d !! 0%nat = Some s0 →
          quoted env updated rate loc →
          dateutil_parse updated = Some tdate →
          main env w
          = wb_save (length (heap w)) None
              (mkWorld (Some tt) (Some tt) (disk w)
                 (heap w ++ [mkWorkbook (uri d)
                               (<[0%nat := format_price r s2]>
                                  (sheets d))])))).
Proof.
  intros Hr Hfilled Hempty Hold. split; [by apply find_row_first|].
  intros Hts Hprice. split.
  - apply write_timestamp_inv in Hts as (text & _ & ->).
    apply write_price_inv in Hprice as (x & Hx & ->).
    exists x. repeat split; try done.
    + unfold cell_get_value in *. rewrite cells_cell_set_text.
      by rewrite decide_False.
    + unfold cell_get_value. rewrite cells_cell_set_value.
      by rewrite decide_True.
  - intros env w d s0 updated -> Hloc Hs0 Hquote Hparse.
    apply (main_reaches_save env w d s0 r updated rate loc tdate s1 s2);
      try done.
    by apply find_row_first.
Qed.

End SheetClaims.

(** Three data rows under the title row: the finder returns 5. *)
Lemma finder_returns_end_witness :
  find_row (G := Demo.engine true) Demo.three_rows = Some (2 + 3).
Proof.
  apply (finder_returns_end_within_sheet (G := Demo.engine true)
           Demo.three_rows 3).
  - lia.
  - vm_compute. reflexivity.
  - apply (filled_by_computation (G := Demo.engine true) _ 2 3).
    vm_compute. reflexivity.
  - vm_compute. reflexivity.
Defined.

(** C1.  The finder on the sheet of 128 rows whose column 1 holds a value
    in every row from 2 to 127, the last one: the first row without a
    value would be 128, and the loop, which stops at the row count, leaves
    127, a row that holds a value.  The comments of the loop ("Find first
    unused row", "row points to the next open row") say what the claim
    says; the exhausted loop is the case they miss. *)
Theorem finder_on_full_sheet_returns_filled_row :
  rows Demo.full = 128
  ∧ forallb (λ i, negb (is_None (cell_get_value (G := Demo.engine true)
                                   Demo.full 1 i)))
            (seqZ 2 126) = true
  ∧ cell_get_value (G := Demo.engine true) Demo.full 1 128 = None
  ∧ find_row (G := Demo.engine true) Demo.full = Some 127
  ∧ cell_get_value (G := Demo.engine true) Demo.full 1 127
    = Some (VFloat (Finite 1)).
Proof. vm_compute. done. Qed.

(** On that sheet the statement about [N] filled rows fails at
    [N = 126]. *)
Lemma finder_returns_end_fails_on_full_sheet :
  ¬ finder_returns_end (G := Demo.engine true) Demo.full 126.
Proof.
  intros Hclaim.
  assert (Hfound : find_row (G := Demo.engine true) Demo.full = Some 127)
    by (vm_compute; reflexivity).
  rewrite Hclaim in Hfound; [discriminate| lia | |].
  - apply (filled_by_computation (G := Demo.engine true) _ 2 126).
    vm_compute. reflexivity.
  - vm_compute. reflexivity.
Qed.

(** C2, witness: the titled sheet is left alone. *)
Lemma ensure_schema_idempotent_witness :
  ensure_schema (G := Demo.engine true) Demo.three_rows = Demo.three_rows
  ∧ journal (ensure_schema (G := Demo.engine true) Demo.three_rows)
    = journal Demo.three_rows.
Proof.
  apply (ensure_schema_idempotent (G := Demo.engine true) Demo.three_rows).
  vm_compute. discriminate.
Defined.

(** C9, witness: the full sheet of 128 rows; the writes land in row 127. *)
Lemma exhausted_scan_overwrites_last_row_witness :
  find_row (G := Demo.engine true) Demo.full = Some 127
  ∧ ∃ text x,
      cells (Demo.priced 127 Demo.full) !! (1, 127) = Some (Text text)
      ∧ cells (Demo.priced 127 Demo.full) !! (2, 127)
        = Some (Typed (VFloat x)).
Proof.
  destruct (exhausted_scan_overwrites_last_row (G := Demo.engine true)
              (P := Demo.parser)
              Demo.full Demo.midnight Demo.en_US "35,000.00"
              (Demo.stamped 127 Demo.full) (Demo.priced 127 Demo.full))
    as (Hrow & _ & Hwrites).
  - vm_compute. reflexivity.
  - apply (filled_by_computation (G := Demo.engine true) _ 2 126).
    vm_compute. reflexivity.
  - split; [exact Hrow|].
    destruct Hwrites as ((text & x & _ & _ & Hts & Hprice) & _);
      [vm_compute; reflexivity | vm_compute; reflexivity |].
    exists text, x. split; [exact Hts | exact Hprice].
Defined.

(** C10, as stated, fails on a sheet with two rows that have a price and
    no timestamp: row 3 is such a row, and the row selected is row 2. *)
Lemma price_only_row_selected_fails_on_second_row :
  ¬ price_only_row_selected (G := Demo.engine true) Demo.prices_only 3.
Proof.
  intros Hclaim.
  assert (Hfound : find_row (G := Demo.engine true) Demo.prices_only = Some 2)
    by (vm_compute; reflexivity).
  rewrite Hclaim in Hfound; [discriminate | |].
  - vm_compute. reflexivity.
  - vm_compute. discriminate.
Qed.

(** C10, witness: row 2 of that sheet is selected and its price replaced. *)
Lemma first_empty_row_price_overwritten_witness :
  find_row (G := Demo.engine true) Demo.prices_only = Some 2
  ∧ ∃ x, cell_get_value (G := Demo.engine true)
           (Demo.priced 2 Demo.prices_only) 2 2 = Some (VFloat x).
Proof.
  destruct (first_empty_row_price_overwritten (G := Demo.engine true)
              (P := Demo.parser)
              Demo.prices_only 2 (VFloat (Finite 5)) Demo.midnight
              Demo.en_US "35,000.00"
              (Demo.stamped 2 Demo.prices_only)
              (Demo.priced 2 Demo.prices_only))
    as (Hrow & Hwrites).
  - simpl. lia.
  - intros i Hi. lia.
  - vm_compute. reflexivity.
  - vm_compute. reflexivity.
  - split; [exact Hrow|].
    destruct Hwrites as ((x & _ & _ & Hprice & _) & _);
      [vm_compute; reflexivity | vm_compute; reflexivity |].
    exists x. exact Hprice.
Defined.

(** * The timestamp *)

Section TimestampClaims.
Context `{G : Gnumeric} `{P : Dateutil}.




End TimestampClaims.


(** A timestamp in the basic format, with a fraction and an offset. *)
Example leap_day_rendered :
  render leap_day = "20200229 235907,25+0200"
  ∧ well_formed leap_day = true
  ∧ ts_plain leap_day = "2020-02-29 23:59:07".
Proof. by vm_compute. Qed.


(** * The price *)

Section PriceClaims.
Context `{G : Gnumeric} `{P : Dateutil}.

(** C5.  The fetched price text goes through the locale-aware parser.
    For every price spelled in the notation of a locale (a sign or none,
    groups of digits with the grouping separator of the locale between
    them, its decimal point and the decimals), [locale.atof] gives the
    binary64 float nearest to the number the price denotes, with the sign
    of the price; that float is put into column 2 of the target row as a
    typed numeric value, not as a text; in the range of the normal floats
    it is within [2^-53], relatively, of the number the price denotes;
    and a run whose quote carries the price goes on to save the sheet
    with the float in the price cell.  Under every locale that groups
    with a comma, "12,345.67" gives the float nearest to 12345.67,
    which is within that tolerance. *)
Theorem price_parsed_and_written_as_number (row : Z) (s : Sheet) :
  (∀ n p,
     plain_separators n = true →
     well_formed_price p = true →
     let rate := render_price n p in
     let x := binary64 (is_negative p) (magnitude p) in
     atof (locale_of n) rate = Some x
     ∧ write_price (locale_of n) rate row s
       = inr (cell_set_value 2 row (VFloat x) s)
     ∧ cells (cell_set_value 2 row (VFloat x) s) !! (2, row)
       = Some (Typed (VFloat x))
     ∧ cell_get_value (cell_set_value 2 row (VFloat x) s) 2 row
       = Some (VFloat x)
     ∧ ((pow2 (-1022) <= magnitude p)%Q → (magnitude p < pow2 1023)%Q →
        within_tolerance x (price_value p))
     ∧ (∀ env w d s0 updated tdate s3,
          located w d → sheets d !! 0%nat = Some s0 →
          find_row (ensure_schema (retitle s0)) = Some row →
          quoted env updated rate (locale_of n) →
          dateutil_parse updated = Some tdate →
          write_timestamp tdate row (ensure_schema (retitle s0)) = inr s3 →
          main env w
          = wb_save (length (heap w)) None
              (mkWorld (Some tt) (Some tt) (disk w)
                 (heap w ++
                  [mkWorkbook (uri d)
                     (<[0%nat := format_price row
                                   (cell_set_value 2 row (VFloat x) s3)]>
                        (sheets d))]))
          ∧ cells (format_price row (cell_set_value 2 row (VFloat x) s3))
              !! (2, row)
            = Some (Typed (VFloat x))))
  ∧ (render_price comma_dot example_price = "12,345.67"
     ∧ ∀ loc,
         thousands_sep loc = "," →
         (decimal_point loc = ""
          ∨ ∃ c, decimal_point loc = String c ""
                 ∧ is_ascii c = true ∧ is_digit c = false) →
         let x := Finite (6787103858842665 # 549755813888) in
         atof loc "12,345.67" = Some x
         ∧ within_tolerance x 12345.67
         ∧ write_price loc "12,345.67" row s
           = inr (cell_set_value 2 row (VFloat x) s)).
Proof.
  split.
  - intros n p Hn Hp rate x.
    pose proof (atof_render n p Hn Hp) as Hatof. fold rate x in Hatof.
    assert (Hwrite : ∀ s', write_price (locale_of n) rate row s'
                           = inr (cell_set_value 2 row (VFloat x) s'))
      by (intros s'; unfold write_price; by rewrite Hatof).
    split; [done|]. split; [done|].
    split; [simpl; apply lookup_insert_eq|].
    split; [unfold cell_get_value; simpl; by rewrite lookup_insert_eq|].
    split.
    + intros Hlo Hhi.
      destruct (binary64_near (is_negative p) (magnitude p) Hlo Hhi)
        as (y & Hy & Hnear).
      exists y. split; [done|]. unfold price_value.
      assert (Hpos : (0 < magnitude p)%Q)
        by (pose proof (pow2_pos (-1022)); lra).
      pose proof (pow2_pos (-53)) as Hc.
      eapply Qle_trans; [exact Hnear|].
      apply Qmult_le_compat_r; [|lra].
      destruct (is_negative p); apply Qabs_case; intros; lra.
    + intros env w d s0 updated tdate s3 Hloc Hs0 Hrow Hquote Hparse Hts.
      split; [|simpl; apply lookup_insert_eq].
      by apply (main_reaches_save env w d s0 row updated rate (locale_of n)
                  tdate s3).
  - split; [reflexivity|].
    intros [ts dd] Hts Hdd x. simpl in Hts, Hdd. subst ts.
    assert (Hatof : atof (mkLocale "," dd) "12,345.67" = Some x).
    { destruct Hdd as [->|(c & -> & Hascii & Hdigit)]; [by vm_compute|].
      destruct c as [[] [] [] [] [] [] [] []];
        first [discriminate Hascii | discriminate Hdigit
              | vm_compute; reflexivity]. }
    split; [done|]. split.
    + exists (6787103858842665 # 549755813888)%Q. split; [done|].
      vm_compute. discriminate.
    + unfold write_price. by rewrite Hatof.
Qed.

End PriceClaims.

(** C5, witness: 12,345.67 where a comma groups, and a negative amount
    where a dot groups and the comma is the decimal point. *)
Lemma price_parsed_and_written_as_number_witness :
  render_price dot_comma debt = "-1.234.567,5"
  ∧ atof (locale_of dot_comma) "-1.234.567,5" = Some (Finite (-2469135 # 2))
  ∧ write_price Demo.en_US "12,345.67" 2 Demo.three_rows
    = inr (cell_set_value 2 2
             (VFloat (Finite (6787103858842665 # 549755813888)))
             Demo.three_rows).
Proof.
  split; [reflexivity|]. split.
  - destruct (proj1 (price_parsed_and_written_as_number
                       (G := Demo.engine true) (P := Demo.parser)
                       2 Demo.three_rows) dot_comma debt)
      as (Hatof & _); [reflexivity|reflexivity|].
    exact Hatof.
  - destruct (proj1 (price_parsed_and_written_as_number
                       (G := Demo.engine true) (P := Demo.parser)
                       2 Demo.three_rows) comma_dot example_price)
      as (_ & Hwrite & _); [reflexivity|reflexivity|].
    exact Hwrite.
Defined.

(** * The locator, persistence, and a run whose save fails *)

Section WorldClaims.
Context `{G : Gnumeric} `{P : Dateutil}.

(** C3.  For every workbook in memory and every target (the override
    file name if given, else the workbook's own URI), with the reporting
    context set up: when the engine's save reports failure, [wb_save]
    raises [IOError] with the message "Failed to save workbook"; when it
    reports success, [wb_save] returns without an error.  Either way
    the documents in memory keep their sheets, the saved one has the URI
    the engine reports, and the disk is as the save left it. *)
Theorem wb_save_raises_iff_save_fails
    (w : World) (wb : nat) (d : Workbook) (filename : option string)
    (ok : bool) (u' : string) (dk : Disk) :
  heap w !! wb = Some d →
  cc w = Some tt →
  let u := match filename with
           | None => uri d
           | Some f => filename_to_uri f
           end in
  save_as d (for_file_name u) u (disk w) = (ok, u', dk) →
  wb_save wb filename w
  = (if ok then inr tt else inl (IOError "Failed to save workbook"),
     mkWorld (cc w) (ioc w) dk
             (<[wb := mkWorkbook u' (sheets d)]> (heap w))).
Proof.
  intros Hd Hcc u Hsave. unfold wb_save.
  assert (Huri : match filename with
                 | None => d <- deref wb ;; ret (uri d)
                 | Some f => ret (filename_to_uri f)
                 end w = (inr u, w)).
  { subst u. destruct filename as [f|]; [done|].
    by rewrite (bind_ok _ _ _ _ _ (deref_ok _ _ _ Hd)). }
  rewrite (bind_ok _ _ _ _ _ Huri).
  rewrite (bind_ok _ _ _ _ _ (deref_ok _ _ _ Hd)).
  rewrite (bind_ok _ _ _ _ _ (global_ok _ _ _ Hcc)).
  unfold bind at 1, get_world. rewrite Hsave.
  unfold bind, put_world, raise, ret. by destruct ok.
Qed.

(** C6.  Where no regular file exists at the path, the locator makes a
    new document with exactly one sheet, sets its URI to the URI of the
    path, and leaves the disk as it was; where a regular file exists
    (and the I/O context is set up), it loads the document from that
    URI and returns the loaded document, and a file the engine cannot
    load ends in an error with nothing kept in memory.  The handle
    returned refers to the document. *)
Theorem wb_open_creates_or_loads (w : World) (filename : string) :
  let u := filename_to_uri filename in
  (os_path_isfile (disk w) filename = false →
   let d := mkWorkbook u [blank_sheet 0] in
   wb_open filename w
   = (inr (length (heap w)),
      mkWorld (cc w) (ioc w) (disk w) (heap w ++ [d]))
   ∧ length (sheets d) = 1%nat ∧ uri d = u
   ∧ (heap w ++ [d]) !! length (heap w) = Some d)
  ∧ (os_path_isfile (disk w) filename = true → ioc w = Some tt →
     ∀ d, new_from_uri u (disk w) = Some d →
          wb_open filename w
          = (inr (length (heap w)),
             mkWorld (cc w) (ioc w) (disk w) (heap w ++ [d]))
          ∧ (heap w ++ [d]) !! length (heap w) = Some d)
  ∧ (os_path_isfile (disk w) filename = true → ioc w = Some tt →
     new_from_uri u (disk w) = None →
     ∃ msg, wb_open filename w = (inl (AttributeError msg), w)).
Proof.
  intros u. subst u. split; [|split].
  - intros Hfile d. subst d.
    split; [by apply wb_open_new|].
    split; [done|]. split; [done|]. by apply list_lookup_middle.
  - intros Hfile Hioc d Hload.
    split; [|by apply list_lookup_middle].
    by rewrite wb_open_existing, Hload.
  - intros Hfile Hioc Hload. eexists.
    by rewrite wb_open_existing, Hload.
Qed.


End WorldClaims.

(** C3, witness: the engine refuses to save the one document in memory. *)
Lemma wb_save_raises_iff_save_fails_witness :
  wb_save (G := Demo.engine false) 0 None
          (mkWorld (Some tt) (Some tt) ∅ [Demo.old_book])
  = (inl (IOError "Failed to save workbook"),
     mkWorld (Some tt) (Some tt) ∅ [Demo.old_book]).
Proof.
  apply (wb_save_raises_iff_save_fails (G := Demo.engine false)
           (mkWorld (Some tt) (Some tt) ∅ [Demo.old_book])
           0%nat Demo.old_book None false "file://btcprices.gnumeric" ∅);
    reflexivity.
Defined.

(** C6, witness: no file on an empty disk, and the file of [old_disk]. *)
Lemma wb_open_creates_or_loads_witness :
  fst (wb_open (G := Demo.engine true) "btcprices.gnumeric" (Demo.boot ∅))
  = inr 0%nat
  ∧ wb_open (G := Demo.engine true) "btcprices.gnumeric"
            (mkWorld (Some tt) (Some tt) Demo.old_disk [])
    = (inr 0%nat, mkWorld (Some tt) (Some tt) Demo.old_disk [Demo.old_book]).
Proof.
  split.
  - destruct (proj1 (wb_open_creates_or_loads (G := Demo.engine true)
                       (Demo.boot ∅) "btcprices.gnumeric"))
      as (Hnew & _); [reflexivity|].
    rewrite Hnew. reflexivity.
  - destruct (proj1 (proj2 (wb_open_creates_or_loads (G := Demo.engine true)
                              (mkWorld (Some tt) (Some tt) Demo.old_disk [])
                              "btcprices.gnumeric"))
                eq_refl eq_refl Demo.old_book)
      as (Hload & _); [vm_compute; reflexivity|].
    exact Hload.
Defined.



(** * The end-to-end scenario *)

(** No file on disk, the quote of 2021-06-01 at 35,000.00, a comma-grouping
    locale and an engine that saves: the run ends normally, the disk has
    the file, and the one sheet in memory is named, titled and carries the
    data row ("2021-06-01 00:00:00", 35000) with the price format. *)
Example run_on_empty_disk :
  main (G := Demo.engine true) (P := Demo.parser) Demo.env (Demo.boot ∅)
  = (inr tt,
     mkWorld (Some tt) (Some tt)
       {[ "btcprices.gnumeric" := RegularFile "saved" ]}
       [mkWorkbook "file://btcprices.gnumeric"
          [format_price 2
             (Demo.priced 2
                (ensure_schema (G := Demo.engine true)
                   (retitle (Demo.empty_sheet "Sheet1" 128))))]]).
Proof. vm_compute. reflexivity. Qed.

(** Under the C locale (no grouping separator) the same price text is not
    a number, and the run stops after the timestamp is written. *)
Example run_under_C_locale :
  fst (main (G := Demo.engine true) (P := Demo.parser)
         (mkEnv (inr Demo.quote) (Some (mkLocale "" ".")))
         (Demo.boot ∅))
  = inl (ValueError "invalid literal for float()").
Proof. vm_compute. reflexivity. Qed.

(** A sheet with no data row to visit: [row] is unbound when the
    timestamp is to be written. *)
Example run_on_two_row_sheet :
  find_row (G := Demo.engine true) (Demo.empty_sheet title 2) = None.
Proof. reflexivity. Qed.

(** * More about the row-end finder *)

Section FinderFacts.
Context `{G : Gnumeric}.

Implicit Types (s : Sheet) (r row col : Z).

(** A loop that visits at least one row binds the variable. *)
Lemma scan_binds s todo prev : todo ≠ [] → is_Some (scan s todo prev).
Proof.
  revert prev. induction todo as [|i todo IH]; intros prev Hne; [done|].
  simpl. destruct (is_None (cell_get_value s 1 i)); [by eexists|].
  destruct todo as [|j todo]; [by eexists|]. by apply IH.
Qed.

(** Where the loop can have stopped: at a row without a value, all rows
    before it having one, or after the last row, all rows having one. *)
Lemma scan_inv s todo prev r :
  scan s todo prev = Some r →
  (∃ pre post, todo = pre ++ r :: post
               ∧ Forall (λ i, cell_get_value s 1 i ≠ None) pre
               ∧ cell_get_value s 1 r = None)
  ∨ (Forall (λ i, cell_get_value s 1 i ≠ None) todo
     ∧ from_option Some prev (last todo) = Some r).
Proof.
  revert prev. induction todo as [|i todo IH]; intros prev Hscan.
  - right. by split.
  - simpl in Hscan.
    destruct (is_None (cell_get_value s 1 i)) eqn:Hi.
    + injection Hscan as <-. left. exists [], todo.
      split; [done|]. split; [done|]. by apply is_None_true.
    + apply is_None_false in Hi.
      destruct (IH _ Hscan) as [(pre & post & -> & Hpre & Hr)|[Hall Hlast]].
      * left. exists (i :: pre), post. split; [done|].
        split; [by constructor|done].
      * right. split; [by constructor|].
        destruct todo as [|j todo]; [done|].
        change (last (i :: j :: todo)) with (last (j :: todo)).
        destruct (last (j :: todo)) eqn:Hl; [done|].
        by apply last_None in Hl.
Qed.

(** The rows of [range(a, b)] up to a given element. *)
Lemma py_range_prefix a b pre k post :
  py_range a b = pre ++ k :: post →
  a ≤ k < b ∧ pre = seqZ a (k - a).
Proof.
  intros Hsplit.
  assert (Hk : py_range a b !! length pre = Some k)
    by (rewrite Hsplit; by apply list_lookup_middle).
  unfold py_range in Hk. apply lookup_seqZ in Hk as [-> Hlt].
  split; [lia|].
  pose proof (py_range_split a b (a + Z.of_nat (length pre)) ltac:(lia))
    as Hcanon.
  rewrite Hsplit in Hcanon.
  apply app_inj_1 in Hcanon as [Hpre _]; [done|].
  rewrite length_seqZ. lia.
Qed.

(** Two sheets that agree on column 1 of the rows visited are scanned
    alike. *)
Lemma scan_ext s s' todo prev :
  Forall (λ i, cell_get_value s 1 i = cell_get_value s' 1 i) todo →
  scan s todo prev = scan s' todo prev.
Proof.
  intros Hsame. revert prev.
  induction Hsame as [|i todo Hi _ IH]; intros prev; simpl; [done|].
  by rewrite Hi, IH.
Qed.

Lemma find_row_ext s s' :
  rows s = rows s' →
  (∀ i, 2 ≤ i → cell_get_value s 1 i = cell_get_value s' 1 i) →
  find_row s = find_row s'.
Proof.
  intros Hrows Hsame. unfold find_row. rewrite Hrows.
  apply scan_ext, Forall_seqZ. intros i Hi. apply Hsame. lia.
Qed.

(** X2.  Whatever row the finder yields is either the first row from
    index 2, inside the sheet, without a value in column 1, or the last
    row of a sheet whose rows 2..rows-1 all have a value there. *)
Theorem find_row_is_first_empty_or_last s r :
  find_row s = Some r →
  (2 ≤ r < rows s
   ∧ cell_get_value s 1 r = None
   ∧ ∀ i, 2 ≤ i < r → cell_get_value s 1 i ≠ None)
  ∨ (2 < rows s ∧ r = rows s - 1
     ∧ ∀ i, 2 ≤ i < rows s → cell_get_value s 1 i ≠ None).
Proof.
  unfold find_row. intros Hscan.
  apply scan_inv in Hscan as [(pre & post & Hsplit & Hpre & Hr)|[Hall Hlast]].
  - left. apply py_range_prefix in Hsplit as [Hin ->].
    split; [done|]. split; [done|].
    intros i Hi. rewrite Forall_seqZ in Hpre. apply Hpre. lia.
  - right.
    destruct (decide (2 < rows s)) as [Hrows|Hrows].
    + rewrite py_range_last in Hlast by done. simpl in Hlast.
      injection Hlast as <-. split; [done|]. split; [done|].
      intros i Hi. unfold py_range in Hall. rewrite Forall_seqZ in Hall.
      apply Hall. lia.
    + unfold py_range in Hlast. by rewrite seqZ_nil in Hlast by lia.
Qed.

(** A row the finder yields lies between 2 and rows-1: neither the
    title row nor a row outside the sheet is ever the target. *)
Lemma find_row_within_data_rows s r :
  find_row s = Some r → 2 ≤ r < rows s.
Proof.
  unfold find_row. intros Hscan.
  apply scan_inv in Hscan as [(pre & post & Hsplit & _)|[_ Hlast]].
  - by apply py_range_prefix in Hsplit as [Hin _].
  - destruct (decide (2 < rows s)) as [Hrows|Hrows].
    + rewrite py_range_last in Hlast by done. simpl in Hlast.
      injection Hlast as <-. lia.
    + unfold py_range in Hlast. by rewrite seqZ_nil in Hlast by lia.
Qed.

(** X1.  The loop variable stays unbound exactly on a sheet of at most 2
    rows, where there is no data row to visit. *)
Theorem find_row_unbound_iff s : find_row s = None ↔ rows s ≤ 2.
Proof.
  split; [|apply find_row_unbound].
  intros Hnone. destruct (decide (rows s ≤ 2)) as [|Hrows]; [done|].
  destruct (scan_binds s (py_range 2 (rows s)) None) as [r Hr].
  - unfold py_range. rewrite seqZ_cons by lia. done.
  - unfold find_row in Hnone. congruence.
Qed.

(** A row found without a value: the rows above it, from 2, have one. *)
Lemma find_row_open_inv s r :
  find_row s = Some r →
  cell_get_value s 1 r = None →
  2 ≤ r < rows s ∧ ∀ i, 2 ≤ i < r → cell_get_value s 1 i ≠ None.
Proof.
  unfold find_row. intros Hscan Hopen.
  apply scan_inv in Hscan as [(pre & post & Hsplit & Hpre & _)|[Hall Hlast]].
  - apply py_range_prefix in Hsplit as [Hin ->]. split; [done|].
    intros i Hi. rewrite Forall_seqZ in Hpre. apply Hpre. lia.
  - destruct (decide (2 < rows s)) as [Hrows|Hrows].
    + rewrite py_range_last in Hlast by done. simpl in Hlast.
      injection Hlast as <-.
      unfold py_range in Hall. rewrite Forall_seqZ in Hall.
      destruct (Hall (rows s - 1)); [lia|done].
    + unfold py_range in Hlast. by rewrite seqZ_nil in Hlast by lia.
Qed.

(** Column 1 once the timestamp, the price and the price format are in
    row [r]. *)
Lemma column1_after_row_written s r t v i :
  cell_get_value (format_price r (cell_set_value 2 r v (cell_set_text 1 r t s)))
                 1 i
  = if decide (i = r) then Some (interpret_text t) else cell_get_value s 1 i.
Proof.
  unfold cell_get_value. simpl.
  rewrite lookup_insert_ne by congruence.
  rewrite lookup_insert. destruct (decide (i = r)) as [->|Hne].
  - by rewrite decide_True.
  - by rewrite decide_False by congruence.
Qed.

(** X3.  Runs append: when the finder stopped at a row without a value
    and the row below is inside the sheet and has no value in column 1
    either, then after the timestamp, the price and the price format are
    put into the row found, the finder yields the row below. *)
Theorem next_run_finds_row_below
    s r (tdate : datetime) (loc : Locale) (rate : string) (s1 s2 : Sheet) :
  find_row s = Some r →
  cell_get_value s 1 r = None →
  r + 1 < rows s →
  cell_get_value s 1 (r + 1) = None →
  write_timestamp tdate r s = inr s1 →
  write_price loc rate r s1 = inr s2 →
  find_row (format_price r s2) = Some (r + 1).
Proof.
  intros Hfound Hopen Hin Hbelow Hts Hprice.
  destruct (find_row_open_inv _ _ Hfound Hopen) as [Hr Hfilled].
  apply write_timestamp_inv in Hts as (text & _ & ->).
  apply write_price_inv in Hprice as (x & _ & ->).
  apply find_row_first.
  - simpl. lia.
  - intros i Hi. rewrite column1_after_row_written.
    destruct (decide (i = r)); [done|]. apply Hfilled. lia.
  - rewrite column1_after_row_written.
    by rewrite decide_False by lia.
Qed.

End FinderFacts.

(** * More about the schema ensurer and the writes of a run *)

Section SchemaFacts.
Context `{G : Gnumeric}.

Implicit Types (s : Sheet) (r row col : Z).

Lemma positions_header : positions (Range_init 1 1 2 1) = [(1, 1); (2, 1)].
Proof. reflexivity. Qed.

(** The style at a position once the header has been made bold. *)
Lemma style_at_header_bold s c r :
  style_at (apply_style (Range_init 1 1 2 1) bold_style s) c r
  = if decide (r = 1 ∧ (c = 1 ∨ c = 2))
    then overlay bold_style (style_at s c r)
    else style_at s c r.
Proof.
  unfold style_at, apply_style. rewrite positions_header. simpl.
  unfold restyle.
  destruct (decide (r = 1 ∧ (c = 1 ∨ c = 2))) as [[-> [-> | ->]]|Hout].
  - by rewrite lookup_insert_eq, lookup_insert_ne.
  - rewrite lookup_insert_ne by done. by rewrite lookup_insert_eq.
  - rewrite !lookup_insert_ne; [done| |]; intros [= <- <-]; apply Hout; auto.
Qed.

(** The style at a position once the price format is laid on row [r]. *)
Lemma style_at_format_price s r c row :
  style_at (format_price r s) c row
  = if decide (c = 2 ∧ row = r)
    then overlay (set_format_text price_format Style_new) (style_at s c row)
    else style_at s c row.
Proof.
  unfold style_at, format_price, apply_style.
  rewrite positions_single. simpl. unfold restyle.
  destruct (decide (c = 2 ∧ row = r)) as [[-> ->]|Hout].
  - by rewrite lookup_insert_eq.
  - rewrite lookup_insert_ne; [done|]. intros [= <- <-]. by apply Hout.
Qed.

Lemma retitle_name s : name (retitle s) = title.
Proof.
  unfold retitle. destruct (String.eqb (name s) title) eqn:Hname; simpl.
  - by apply String.eqb_eq.
  - done.
Qed.

Lemma retitle_frame s :
  rows (retitle s) = rows s ∧ cells (retitle s) = cells s
  ∧ styles (retitle s) = styles s.
Proof. unfold retitle. by destruct (negb _). Qed.

(** After the schema ensurer the sentinel cell holds a value. *)
Lemma ensure_schema_sentinel s : cell_get_value (ensure_schema s) 1 1 ≠ None.
Proof.
  unfold ensure_schema.
  destruct (is_None (cell_get_value s 1 1)) eqn:Hsentinel.
  - apply (cell_get_value_Some _ _ _ (Text "Timestamp (UTC)")).
    simpl. rewrite lookup_insert_ne by done. apply lookup_insert_eq.
  - by apply is_None_false.
Qed.

(** The schema ensurer leaves everything but the two header cells. *)
Lemma ensure_schema_frame s :
  name (ensure_schema s) = name s ∧ rows (ensure_schema s) = rows s
  ∧ ∀ c r, ¬ (r = 1 ∧ (c = 1 ∨ c = 2)) →
      cells (ensure_schema s) !! (c, r) = cells s !! (c, r)
      ∧ style_at (ensure_schema s) c r = style_at s c r.
Proof.
  unfold ensure_schema.
  destruct (is_None (cell_get_value s 1 1)); [|done].
  split; [done|]. split; [done|].
  intros c r Hout. split.
  - simpl. rewrite !lookup_insert_ne; [done| |]; intros [= <- <-];
      apply Hout; auto.
  - rewrite style_at_header_bold. by rewrite decide_False.
Qed.

(** X4.  The schema ensurer stays out of the data rows: whether or not
    it writes the title row, the row the finder yields, the row count,
    the name, and every cell and style outside row 1 are as before. *)
Theorem ensure_schema_keeps_data_rows s :
  find_row (ensure_schema s) = find_row s
  ∧ rows (ensure_schema s) = rows s
  ∧ name (ensure_schema s) = name s
  ∧ ∀ c r, r ≠ 1 →
      cells (ensure_schema s) !! (c, r) = cells s !! (c, r)
      ∧ style_at (ensure_schema s) c r = style_at s c r.
Proof.
  destruct (ensure_schema_frame s) as (Hname & Hrows & Hframe).
  split; [|split; [done|split; [done|]]].
  - apply find_row_ext; [done|].
    intros i Hi. unfold cell_get_value.
    by destruct (Hframe 1 i ltac:(lia)) as [-> _].
  - intros c r Hr. apply Hframe. tauto.
Qed.

(** X5.  On a sheet whose sentinel cell (1,1) is empty the schema
    ensurer puts the two labels as text into (1,1) and (2,1), whatever
    (2,1) held, makes both cells bold while keeping the number format
    each had, and journals exactly these three writes. *)
Theorem ensure_schema_first_run s :
  cell_get_value s 1 1 = None →
  let s' := ensure_schema s in
  cells s' !! (1, 1) = Some (Text "Timestamp (UTC)")
  ∧ cells s' !! (2, 1) = Some (Text "BTC Price (USD)")
  ∧ (∀ c, c = 1 ∨ c = 2 →
       font_bold (style_at s' c 1) = Some true
       ∧ format_text (style_at s' c 1) = format_text (style_at s c 1))
  ∧ journal s' =
      [WStyle (mkRange 1 1 2 1) (mkStyle (Some true) None);
       WText 2 1 "BTC Price (USD)"; WText 1 1 "Timestamp (UTC)"]
      ++ journal s.
Proof.
  intros Hsentinel s'. subst s'. unfold ensure_schema.
  apply is_None_true in Hsentinel. rewrite Hsentinel.
  split; [|split; [|split]].
  - simpl. rewrite lookup_insert_ne by done. apply lookup_insert_eq.
  - simpl. apply lookup_insert_eq.
  - intros c Hc. rewrite style_at_header_bold.
    rewrite decide_True by done. by split.
  - done.
Qed.

(** X6.  The sheet steps of a run (name check, schema ensurer, timestamp,
    price, price format) leave the sheet named with the title, with a
    value in the sentinel cell and with its row count unchanged, and
    touch no cell and no style outside row 1 and the target row, nor
    outside columns 1 and 2. *)
Theorem run_touches_title_row_and_target_row_only
    s0 r (tdate : datetime) (loc : Locale) (rate : string) (s3 s4 : Sheet) :
  write_timestamp tdate r (ensure_schema (retitle s0)) = inr s3 →
  write_price loc rate r s3 = inr s4 →
  let s5 := format_price r s4 in
  name s5 = title
  ∧ rows s5 = rows s0
  ∧ cell_get_value s5 1 1 ≠ None
  ∧ (∀ c row, (row ≠ 1 ∧ row ≠ r) ∨ (c ≠ 1 ∧ c ≠ 2) →
       cells s5 !! (c, row) = cells s0 !! (c, row)
       ∧ style_at s5 c row = style_at s0 c row).
Proof.
  intros Hts Hprice s5. subst s5.
  apply write_timestamp_inv in Hts as (text & _ & ->).
  apply write_price_inv in Hprice as (x & _ & ->).
  destruct (ensure_schema_frame (retitle s0)) as (Hname & Hrows & Hframe).
  destruct (retitle_frame s0) as (Hrows0 & Hcells0 & Hstyles0).
  split; [simpl; by rewrite Hname, retitle_name|].
  split; [simpl; by rewrite Hrows, Hrows0|].
  split.
  - destruct (decide (r = 1)) as [->|Hr].
    + apply (cell_get_value_Some _ _ _ (Text text)). simpl.
      rewrite lookup_insert_ne by done. apply lookup_insert_eq.
    + pose proof (ensure_schema_sentinel (retitle s0)) as Hset.
      unfold cell_get_value in *. simpl.
      rewrite !lookup_insert_ne by congruence. done.
  - intros c row Hout.
    assert (Hheader : ¬ (row = 1 ∧ (c = 1 ∨ c = 2))) by lia.
    destruct (Hframe c row Hheader) as [Hcell Hstyle].
    split.
    + simpl. rewrite !lookup_insert_ne.
      * by rewrite Hcell, Hcells0.
      * intros [= <- <-]. lia.
      * intros [= <- <-]. lia.
    + rewrite style_at_format_price. rewrite decide_False by lia.
      unfold style_at in *. simpl. by rewrite Hstyle, Hstyles0.
Qed.

End SchemaFacts.

(** * More about the locator and persistence *)

Section LocatorFacts.
Context `{G : Gnumeric}.

Lemma bind_raise {A B} (m : M A) (k : A → M B) w e w' :
  m w = (inl e, w') → bind m k w = (inl e, w').
Proof. unfold bind. by intros ->. Qed.

Lemma global_unbound var field w :
  field w = None → global var field w = (inl (NameError var), w).
Proof. unfold global, bind, get_world, expect, raise. by intros ->. Qed.

Lemma wb_open_unbound w filename :
  os_path_isfile (disk w) filename = true →
  ioc w = None →
  wb_open filename w = (inl (NameError "ioc"), w).
Proof.
  intros Hfile Hioc.
  unfold wb_open. unfold bind at 1, get_world. rewrite Hfile.
  by rewrite (bind_raise _ _ _ _ _ (global_unbound "ioc" ioc _ Hioc)).
Qed.

(** The target of a save. *)
Lemma save_target wb filename w d :
  heap w !! wb = Some d →
  match filename with
  | None => d <- deref wb ;; ret (uri d)
  | Some f => ret (filename_to_uri f)
  end w
  = (inr match filename with
         | None => uri d
         | Some f => filename_to_uri f
         end, w).
Proof.
  intros Hd. destruct filename as [f|]; [done|].
  by rewrite (bind_ok _ _ _ _ _ (deref_ok _ _ _ Hd)).
Qed.

(** Saving a document that is in memory, spelled out. *)
Lemma wb_save_in_memory wb filename w d :
  heap w !! wb = Some d →
  let u := match filename with
           | None => uri d
           | Some f => filename_to_uri f
           end in
  wb_save wb filename w
  = match cc w with
    | None => (inl (NameError "cc"), w)
    | Some _ =>
        let '(ok, u', dk) := save_as d (for_file_name u) u (disk w) in
        (if ok then inr tt else inl (IOError "Failed to save workbook"),
         mkWorld (cc w) (ioc w) dk
                 (<[wb := mkWorkbook u' (sheets d)]> (heap w)))
    end.
Proof.
  intros Hd u. unfold wb_save.
  rewrite (bind_ok _ _ _ _ _ (save_target _ _ _ _ Hd)). fold u.
  rewrite (bind_ok _ _ _ _ _ (deref_ok _ _ _ Hd)).
  destruct (cc w) as [[]|] eqn:Hcc.
  - rewrite (bind_ok _ _ _ _ _ (global_ok _ _ _ Hcc)).
    unfold bind at 1, get_world.
    destruct (save_as d (for_file_name u) u (disk w)) as [[ok u'] dk].
    unfold bind, put_world, raise, ret. rewrite Hcc. by destruct ok.
  - by rewrite (bind_raise _ _ _ _ _ (global_unbound "cc" cc _ Hcc)).
Qed.

(** Saving through a handle that leads nowhere. *)
Lemma wb_save_dangling wb filename w :
  heap w !! wb = None →
  ∃ e, wb_save wb filename w = (inl e, w) ∧ ∀ msg, e ≠ IOError msg.
Proof.
  intros Hd. eexists. split.
  - unfold wb_save. destruct filename as [f|].
    + unfold bind at 1, ret at 1.
      unfold deref. unfold bind at 1. unfold bind at 1, get_world.
      rewrite Hd. reflexivity.
    + unfold bind at 1. unfold deref at 1. unfold bind at 1.
      unfold bind at 1, get_world. rewrite Hd. reflexivity.
  - done.
Qed.

(** X7.  The locator never touches the disk or the two contexts, and
    never alters a document already in memory: when it returns, the
    handle is a new one and the document it refers to is the only
    addition; when it raises, memory is as before. *)
Theorem wb_open_keeps_disk_and_memory (w : World) (filename : string) :
  disk (wb_open filename w).2 = disk w
  ∧ cc (wb_open filename w).2 = cc w
  ∧ ioc (wb_open filename w).2 = ioc w
  ∧ match (wb_open filename w).1 with
    | inr wb => wb = length (heap w)
                ∧ ∃ d, heap (wb_open filename w).2 = heap w ++ [d]
    | inl _ => heap (wb_open filename w).2 = heap w
    end.
Proof.
  destruct (os_path_isfile (disk w) filename) eqn:Hfile.
  - destruct (ioc w) as [[]|] eqn:Hioc.
    + rewrite wb_open_existing by done.
      destruct (new_from_uri _ _) as [d|]; simpl; eauto 10.
    + by rewrite wb_open_unbound.
  - rewrite wb_open_new by done. simpl. eauto 10.
Qed.

(** X8.  Without [gnm_init]: on an existing file the locator raises
    [NameError] for [ioc] before anything is loaded, and saving a document
    raises [NameError] for [cc] before the engine's save is reached; the
    world, disk included, is as it was in both cases. *)
Theorem contexts_unbound_raise_NameError
    (w : World) (filename : string) (wb : nat) (d : Workbook)
    (target : option string) :
  (os_path_isfile (disk w) filename = true → ioc w = None →
   wb_open filename w = (inl (NameError "ioc"), w))
  ∧ (heap w !! wb = Some d → cc w = None →
     wb_save wb target w = (inl (NameError "cc"), w)).
Proof.
  split.
  - apply wb_open_unbound.
  - intros Hd Hcc. rewrite (wb_save_in_memory _ _ _ _ Hd). by rewrite Hcc.
Qed.

(** X10.  A workbook made by the locator for a path without a file is
    saved, when no target is given, exactly as when that same path is
    given as the target. *)
Theorem new_workbook_saves_to_its_path
    (w w' : World) (filename : string) (wb : nat) :
  os_path_isfile (disk w) filename = false →
  wb_open filename w = (inr wb, w') →
  wb_save wb None w' = wb_save wb (Some filename) w'.
Proof.
  intros Hfile Hopen. rewrite wb_open_new in Hopen by done.
  injection Hopen as <- <-.
  assert (Hd : heap (mkWorld (cc w) (ioc w) (disk w)
                       (heap w ++ [mkWorkbook (filename_to_uri filename)
                                              [blank_sheet 0]]))
               !! length (heap w)
               = Some (mkWorkbook (filename_to_uri filename) [blank_sheet 0]))
    by by apply list_lookup_middle.
  by rewrite !(wb_save_in_memory _ _ _ _ Hd).
Qed.

(** X11.  Once [gnm_init] has run, neither the locator nor a save can
    raise [NameError], whatever the state before. *)
Theorem gnm_init_binds_contexts
    (w : World) (filename : string) (wb : nat) (target : option string)
    (var : string) :
  (∀ w', (gnm_init ;; wb_open filename) w ≠ (inl (NameError var), w'))
  ∧ (∀ w', (gnm_init ;; wb_save wb target) w ≠ (inl (NameError var), w')).
Proof.
  split.
  - intros w'. rewrite (bind_ok _ _ _ _ _ (gnm_init_ok w)).
    set (w1 := mkWorld _ _ _ _).
    destruct (os_path_isfile (disk w1) filename) eqn:Hfile.
    + rewrite wb_open_existing by done.
      by destruct (new_from_uri _ _).
    + by rewrite wb_open_new.
  - intros w'. rewrite (bind_ok _ _ _ _ _ (gnm_init_ok w)).
    set (w1 := mkWorld _ _ _ _).
    destruct (heap w1 !! wb) as [d|] eqn:Hd.
    + rewrite (wb_save_in_memory _ _ _ _ Hd). simpl.
      destruct (save_as d _ _ _) as [[[] u'] dk]; done.
    + unfold wb_save. destruct target as [f|].
      * unfold bind at 1, ret at 1. unfold deref. unfold bind at 1.
        unfold bind at 1, get_world. by rewrite Hd.
      * unfold bind at 1. unfold deref at 1. unfold bind at 1.
        unfold bind at 1, get_world. by rewrite Hd.
Qed.

End LocatorFacts.

(** * More about the run *)

Section RunFacts.
Context `{G : Gnumeric} `{P : Dateutil}.

(** [main] is the setup, the locator, the sheet steps and the scan,
    followed by [record_quote]. *)
Lemma main_phases env :
  main env
  = (gnm_init ;;
     wb <- wb_open "btcprices.gnumeric" ;;
     sheet <- sheet_by_index wb 0 ;;
     n <- sheet_read sheet name ;;
     (if negb (String.eqb n title) then sheet_update sheet (set_name title)
      else ret tt) ;;
     sheet_update sheet ensure_schema ;;
     row <- sheet_read sheet find_row ;;
     record_quote env wb sheet row).
Proof. reflexivity. Qed.

Lemma peek_at_sheet w d s0 s :
  sheets d !! 0%nat = Some s0 →
  peek (length (heap w), 0%nat) (at_sheet w d s) = Some s.
Proof.
  intros Hs0. unfold at_sheet. apply peek_fresh. simpl.
  apply list_lookup_insert_eq. by eapply lookup_lt_Some.
Qed.

Lemma poke_at_sheet w d s s' :
  poke (length (heap w), 0%nat) s' (at_sheet w d s) = at_sheet w d s'.
Proof.
  unfold at_sheet. rewrite poke_fresh. simpl.
  by rewrite list_insert_insert_eq.
Qed.

(** The run up to the fetch. *)
Lemma main_to_fetch env w d s0 :
  located w d →
  sheets d !! 0%nat = Some s0 →
  main env w
  = record_quote env (length (heap w)) (length (heap w), 0%nat)
      (find_row (ensure_schema (retitle s0)))
      (at_sheet w d (ensure_schema (retitle s0))).
Proof.
  intros Hloc Hs0.
  set (sheet := (length (heap w), 0%nat)).
  set (w1 := mkWorld (Some tt) (Some tt) (disk w) (heap w ++ [d])).
  assert (Hpeek1 : peek sheet w1 = Some s0) by by apply peek_fresh.
  rewrite main_phases.
  rewrite (bind_ok _ _ _ _ _ (gnm_init_ok w)).
  rewrite (bind_ok _ _ _ _ _
             (wb_open_located (mkWorld _ _ (disk w) (heap w)) d
                eq_refl Hloc)).
  simpl. fold w1.
  rewrite (bind_ok _ _ _ _ _ (sheet_by_index_ok _ _ _ _ Hpeek1)).
  fold sheet.
  rewrite (bind_ok _ _ _ _ _ (sheet_read_peek _ name _ _ Hpeek1)).
  rewrite (bind_ok _ _ _ _ _ (rename_step _ _ _ Hpeek1)).
  pose proof (peek_poke _ _ _ (retitle s0) Hpeek1) as Hpeek2.
  rewrite (bind_ok _ _ _ _ _ (sheet_update_poke _ ensure_schema _ _ Hpeek2)).
  rewrite poke_poke.
  pose proof (peek_poke _ _ _ (ensure_schema (retitle s0)) Hpeek1) as Hpeek3.
  rewrite (bind_ok _ _ _ _ _ (sheet_read_peek _ find_row _ _ Hpeek3)).
  unfold sheet, w1. rewrite poke_fresh. reflexivity.
Qed.

(** *** What a run does to the disk *)

Lemma keeps_disk_bind {A B} (m : M A) (k : A → M B) :
  keeps_disk m → (∀ x, keeps_disk (k x)) → keeps_disk (bind m k).
Proof.
  intros Hm Hk w. unfold bind. specialize (Hm w).
  destruct (m w) as [[e|x] w1]; simpl in *; [done|].
  by rewrite Hk.
Qed.

Lemma keeps_disk_ret {A} (x : A) : keeps_disk (ret x).
Proof. done. Qed.

Lemma keeps_disk_raise {A} e : keeps_disk (raise (A := A) e).
Proof. done. Qed.

Lemma keeps_disk_lift {A} (r : PyError + A) : keeps_disk (lift r).
Proof. by destruct r. Qed.

Lemma keeps_disk_expect {A} e (o : option A) : keeps_disk (expect e o).
Proof. by destruct o. Qed.

Lemma keeps_disk_deref wb : keeps_disk (deref wb).
Proof.
  intros w. unfold deref, bind, get_world, expect. simpl.
  by destruct (heap w !! wb).
Qed.

Lemma keeps_disk_mutate wb f : keeps_disk (mutate wb f).
Proof.
  unfold mutate.
  apply keeps_disk_bind; [apply keeps_disk_deref|intros d].
  by intros w.
Qed.

Lemma keeps_disk_gnm_init : keeps_disk gnm_init.
Proof. done. Qed.

Lemma keeps_disk_wb_open filename : keeps_disk (wb_open filename).
Proof.
  intros w. destruct (os_path_isfile (disk w) filename) eqn:Hfile.
  - destruct (ioc w) as [[]|] eqn:Hioc.
    + rewrite wb_open_existing by done. by destruct (new_from_uri _ _).
    + by rewrite wb_open_unbound.
  - by rewrite wb_open_new.
Qed.

Lemma keeps_disk_sheet_by_index wb i : keeps_disk (sheet_by_index wb i).
Proof.
  unfold sheet_by_index.
  apply keeps_disk_bind; [apply keeps_disk_deref|intros d].
  apply keeps_disk_bind; [apply keeps_disk_expect|intros _].
  apply keeps_disk_ret.
Qed.

Lemma keeps_disk_sheet_read {A} sheet (f : Sheet → A) :
  keeps_disk (sheet_read sheet f).
Proof.
  unfold sheet_read.
  apply keeps_disk_bind; [apply keeps_disk_deref|intros d].
  apply keeps_disk_bind; [apply keeps_disk_expect|intros s].
  apply keeps_disk_ret.
Qed.

Lemma keeps_disk_sheet_update sheet f : keeps_disk (sheet_update sheet f).
Proof.
  unfold sheet_update.
  apply keeps_disk_bind; [apply keeps_disk_sheet_read|intros s].
  apply keeps_disk_mutate.
Qed.

Lemma keeps_disk_sheet_try sheet f : keeps_disk (sheet_try sheet f).
Proof.
  unfold sheet_try.
  apply keeps_disk_bind; [apply keeps_disk_sheet_read|intros s].
  apply keeps_disk_bind; [apply keeps_disk_lift|intros s'].
  apply keeps_disk_sheet_update.
Qed.

Create HintDb disk discriminated.

Hint Resolve keeps_disk_ret keeps_disk_raise keeps_disk_lift
  keeps_disk_expect keeps_disk_deref keeps_disk_mutate keeps_disk_gnm_init
  keeps_disk_wb_open keeps_disk_sheet_by_index keeps_disk_sheet_read
  keeps_disk_sheet_update keeps_disk_sheet_try : disk.

Lemma saves_at_most_once_bind {A B} (m : M A) (k : A → M B) :
  keeps_disk m → (∀ x, saves_at_most_once (k x)) →
  saves_at_most_once (bind m k).
Proof.
  intros Hm Hk w. unfold bind. specialize (Hm w).
  destruct (m w) as [[e|x] w1]; simpl in *; [by left|].
  rewrite <- Hm. apply Hk.
Qed.

Lemma fails_before_saving_bind {A B} (m : M A) (k : A → M B) :
  keeps_disk m → (∀ x, fails_before_saving (k x)) →
  fails_before_saving (bind m k).
Proof.
  intros Hm Hk w e w' Hrun Hother. unfold bind in Hrun. specialize (Hm w).
  destruct (m w) as [[e1|x] w1]; simpl in *.
  - by injection Hrun as <- <-.
  - rewrite <- Hm. by eapply Hk.
Qed.

Lemma saves_at_most_once_wb_save wb target :
  saves_at_most_once (wb_save wb target).
Proof.
  intros w. destruct (heap w !! wb) as [d|] eqn:Hd.
  - rewrite (wb_save_in_memory _ _ _ _ Hd).
    destruct (cc w) as [[]|]; [|by left].
    destruct (save_as d _ _ (disk w)) as [[ok u'] dk] eqn:Hsave. simpl.
    right. eexists _, _, _. by rewrite Hsave.
  - destruct (wb_save_dangling wb target w Hd) as (e & -> & _). by left.
Qed.

Lemma fails_before_saving_wb_save wb target :
  fails_before_saving (wb_save wb target).
Proof.
  intros w e w' Hrun Hother. destruct (heap w !! wb) as [d|] eqn:Hd.
  - rewrite (wb_save_in_memory _ _ _ _ Hd) in Hrun.
    destruct (cc w) as [[]|]; [|by injection Hrun as <- <-].
    destruct (save_as d _ _ (disk w)) as [[[] u'] dk]; [done|].
    injection Hrun as <- <-. by destruct (Hother "Failed to save workbook").
  - destruct (wb_save_dangling wb target w Hd) as (e' & Hrun' & _).
    rewrite Hrun' in Hrun. by injection Hrun as <- <-.
Qed.

(** Peeling the steps of [main] that keep the disk. *)
Ltac peel lemma :=
  repeat (apply lemma;
          [first [solve [auto with disk]
                 |case_match; solve [auto with disk]]
          |intros ?]).

(** X12.  Whatever the quote, the locale and the world, a run changes the
    disk, if at all, by a single save of the engine applied to the disk it
    started with; nothing else in the run writes to disk. *)
Theorem run_saves_at_most_once (env : Env) (w : World) :
  disk (main env w).2 = disk w
  ∨ ∃ d fs u, disk (main env w).2 = (save_as d fs u (disk w)).2.
Proof.
  revert w. change (saves_at_most_once (main env)).
  unfold main. peel @saves_at_most_once_bind.
  apply saves_at_most_once_wb_save.
Qed.

(** X13.  A run that ends with an exception other than [IOError] (a
    missing key, an unreadable timestamp or price, an unbound row, a file
    that cannot be loaded) has not reached the save: the disk is as it
    was. *)
Theorem run_failing_before_save_keeps_disk
    (env : Env) (w w' : World) (e : PyError) :
  main env w = (inl e, w') →
  (∀ msg, e ≠ IOError msg) →
  disk w' = disk w.
Proof.
  revert w e w'. change (fails_before_saving (main env)).
  unfold main. peel @fails_before_saving_bind.
  apply fails_before_saving_wb_save.
Qed.

(** *** The ways a run ends *)

(** X14.  A run whose every step goes through and whose save succeeds
    returns normally; the document handed to the engine's save is the one
    in memory with the timestamp, the price and the price format in the
    target row, saved under the document's own URI; afterwards the disk
    is the one that save left and the document has the URI the engine
    reports. *)
Theorem run_saves_written_document
    env w d s0 r updated rate loc tdate s3 s4 u' dk :
  located w d →
  sheets d !! 0%nat = Some s0 →
  find_row (ensure_schema (retitle s0)) = Some r →
  quoted env updated rate loc →
  dateutil_parse updated = Some tdate →
  write_timestamp tdate r (ensure_schema (retitle s0)) = inr s3 →
  write_price loc rate r s3 = inr s4 →
  let d' := mkWorkbook (uri d) (<[0%nat := format_price r s4]> (sheets d)) in
  save_as d' (for_file_name (uri d)) (uri d) (disk w) = (true, u', dk) →
  main env w
  = (inr tt,
     mkWorld (Some tt) (Some tt) dk (heap w ++ [mkWorkbook u' (sheets d')])).
Proof.
  intros Hloc Hs0 Hrow Hquote Hparse Hts Hprice d' Hsave.
  rewrite (main_reaches_save env w d s0 r updated rate loc tdate s3 s4)
    by done.
  fold d'. by apply (wb_save_at_end w d' u' dk true).
Qed.

(** X15.  When the quote cannot be fetched or decoded, or lacks the key
    [time], the run ends with that very exception right after the scan:
    the sheet in memory is named and titled, no data row is written, and
    the disk is as it was. *)
Theorem run_without_quote_stops_after_scan env w d s0 e :
  located w d →
  sheets d !! 0%nat = Some s0 →
  response env = inl e
  ∨ (∃ data, response env = inr data ∧ getitem data "time" = inl e) →
  main env w = (inl e, at_sheet w d (ensure_schema (retitle s0)))
  ∧ disk (at_sheet w d (ensure_schema (retitle s0))) = disk w.
Proof.
  intros Hloc Hs0 Hquote. split; [|done].
  rewrite (main_to_fetch env w d s0) by done. unfold record_quote.
  destruct Hquote as [Hresp|(data & Hresp & Htime)].
  - by rewrite Hresp.
  - rewrite Hresp. unfold lift at 1. unfold bind at 1, ret at 1.
    by rewrite Htime.
Qed.

(** X16.  On a sheet of at most 2 rows the scan visits no row, and a run
    that gets a readable timestamp ends with [NameError] for [row] when
    the timestamp is to be written; nothing is written below the title
    row and nothing is saved. *)
Theorem run_on_sheet_without_data_rows_raises_NameError
    env w d s0 data time updated tdate :
  located w d →
  sheets d !! 0%nat = Some s0 →
  rows s0 ≤ 2 →
  response env = inr data →
  getitem data "time" = inr time →
  getitem time "updated" = inr (JString updated) →
  dateutil_parse updated = Some tdate →
  main env w
  = (inl (NameError "row"), at_sheet w d (ensure_schema (retitle s0))).
Proof.
  intros Hloc Hs0 Hrows Hresp Htime Hupd Hparse.
  rewrite (main_to_fetch env w d s0) by done.
  rewrite find_row_unbound.
  - unfold record_quote.
    rewrite Hresp. unfold lift at 1. unfold bind at 1, ret at 1.
    rewrite Htime. unfold lift at 1. unfold bind at 1, ret at 1.
    rewrite Hupd. unfold lift at 1. unfold bind at 1, ret at 1.
    unfold as_text at 1, lift at 1. unfold bind at 1, ret at 1.
    by rewrite Hparse.
  - destruct (ensure_schema_frame (retitle s0)) as (_ & -> & _).
    by destruct (retitle_frame s0) as (-> & _).
Qed.

(** X17.  When the price text is not a number under the locale of the
    environment, the run ends with [ValueError] after the timestamp has
    been written: the sheet in memory has the timestamp in column 1 of
    the target row, column 2 of that row is as the sheet had it before
    the run, and nothing is saved. *)
Theorem run_with_unreadable_price_keeps_timestamp
    env w d s0 r updated rate loc tdate s3 :
  located w d →
  sheets d !! 0%nat = Some s0 →
  find_row (ensure_schema (retitle s0)) = Some r →
  quoted env updated rate loc →
  dateutil_parse updated = Some tdate →
  write_timestamp tdate r (ensure_schema (retitle s0)) = inr s3 →
  atof loc rate = None →
  main env w
  = (inl (ValueError "invalid literal for float()"), at_sheet w d s3)
  ∧ (∃ text, cells s3 !! (1, r) = Some (Text text))
  ∧ cells s3 !! (2, r) = cells s0 !! (2, r)
  ∧ disk (at_sheet w d s3) = disk w.
Proof.
  intros Hloc Hs0 Hrow Hquote Hparse Hts Hatof.
  destruct Hquote as (data & time & bpi & usd & Hresp & Htime & Hupd
                      & Hbpi & Husd & Hrate & Hlocale).
  split; [|split; [|split; [|done]]].
  - rewrite (main_to_fetch env w d s0) by done. rewrite Hrow.
    pose proof (peek_at_sheet w d s0 (ensure_schema (retitle s0)) Hs0)
      as Hpeek.
    unfold record_quote.
    rewrite Hresp. unfold lift at 1. unfold bind at 1, ret at 1.
    rewrite Htime. unfold lift at 1. unfold bind at 1, ret at 1.
    rewrite Hupd. unfold lift at 1. unfold bind at 1, ret at 1.
    unfold as_text at 1, lift at 1. unfold bind at 1, ret at 1.
    rewrite Hparse. unfold expect at 1. unfold bind at 1, ret at 1.
    unfold expect at 1. unfold bind at 1, ret at 1.
    rewrite (bind_ok _ _ _ _ _ (sheet_try_poke _ _ _ _ _ Hpeek Hts)).
    rewrite poke_at_sheet.
    pose proof (peek_at_sheet w d s0 s3 Hs0) as Hpeek3.
    rewrite Hlocale. unfold expect at 1. unfold bind at 1, ret at 1.
    rewrite Hbpi. unfold lift at 1. unfold bind at 1, ret at 1.
    rewrite Husd. unfold lift at 1. unfold bind at 1, ret at 1.
    rewrite Hrate. unfold lift at 1. unfold bind at 1, ret at 1.
    unfold as_replaceable at 1, lift at 1. unfold bind at 1, ret at 1.
    unfold bind at 1, sheet_try.
    rewrite (bind_ok _ _ _ _ _ (sheet_read_peek _ id _ _ Hpeek3)).
    unfold id, write_price. by rewrite Hatof.
  - apply write_timestamp_inv in Hts as (text & _ & ->).
    exists text. simpl. apply lookup_insert_eq.
  - apply write_timestamp_inv in Hts as (text & _ & ->).
    simpl. rewrite lookup_insert_ne by done.
    apply find_row_within_data_rows in Hrow.
    destruct (ensure_schema_frame (retitle s0)) as (_ & Hrows & Hframe).
    rewrite Hrows in Hrow.
    destruct (Hframe 2 r ltac:(lia)) as [-> _].
    by destruct (retitle_frame s0) as (_ & -> & _).
Qed.

End RunFacts.

(** * Instances of the further properties *)

(** X2, witness: three data rows, the finder stops at the first empty row. *)
Lemma find_row_is_first_empty_or_last_witness :
  (2 ≤ 5 < rows Demo.three_rows
   ∧ cell_get_value (G := Demo.engine true) Demo.three_rows 1 5 = None
   ∧ ∀ i, 2 ≤ i < 5 →
       cell_get_value (G := Demo.engine true) Demo.three_rows 1 i ≠ None)
  ∨ (2 < rows Demo.three_rows ∧ 5 = rows Demo.three_rows - 1
     ∧ ∀ i, 2 ≤ i < rows Demo.three_rows →
         cell_get_value (G := Demo.engine true) Demo.three_rows 1 i ≠ None).
Proof.
  apply (find_row_is_first_empty_or_last (G := Demo.engine true)
           Demo.three_rows 5).
  vm_compute. reflexivity.
Defined.

(** X3, witness: after row 5 is written the finder yields row 6. *)
Lemma next_run_finds_row_below_witness :
  find_row (G := Demo.engine true)
           (format_price 5 (Demo.priced 5 Demo.three_rows))
  = Some (5 + 1).
Proof.
  apply (next_run_finds_row_below (G := Demo.engine true)
           Demo.three_rows 5 Demo.midnight Demo.en_US "35,000.00"
           (Demo.stamped 5 Demo.three_rows) (Demo.priced 5 Demo.three_rows));
    vm_compute; reflexivity.
Defined.

(** X5, witness: the first run on a new sheet. *)
Lemma ensure_schema_first_run_witness :
  cells (ensure_schema (G := Demo.engine true) Demo.sheet1) !! (1, 1)
  = Some (Text "Timestamp (UTC)").
Proof.
  apply (ensure_schema_first_run (G := Demo.engine true) Demo.sheet1).
  vm_compute. reflexivity.
Defined.

(** X6, witness: the sheet steps on the new sheet, target row 2. *)
Lemma run_touches_title_row_and_target_row_only_witness :
  name (format_price 2 (Demo.priced 2 Demo.sheet1_titled)) = title
  ∧ rows (format_price 2 (Demo.priced 2 Demo.sheet1_titled)) = 128.
Proof.
  destruct (run_touches_title_row_and_target_row_only (G := Demo.engine true)
              Demo.sheet1 2 Demo.midnight Demo.en_US "35,000.00"
              (Demo.stamped 2 Demo.sheet1_titled)
              (Demo.priced 2 Demo.sheet1_titled))
    as (Hname & Hrows & _);
    [vm_compute; reflexivity | vm_compute; reflexivity |].
  split; [exact Hname | exact Hrows].
Defined.

(** X8, witness: an existing file, and a document, before [gnm_init]. *)
Lemma contexts_unbound_raise_NameError_witness :
  wb_open (G := Demo.engine true) "btcprices.gnumeric"
          (Demo.boot Demo.old_disk)
  = (inl (NameError "ioc"), Demo.boot Demo.old_disk)
  ∧ wb_save (G := Demo.engine true) 0 None
            (mkWorld None None ∅ [Demo.old_book])
    = (inl (NameError "cc"), mkWorld None None ∅ [Demo.old_book]).
Proof.
  split.
  - apply (proj1 (contexts_unbound_raise_NameError (G := Demo.engine true)
                    (Demo.boot Demo.old_disk) "btcprices.gnumeric"
                    0%nat Demo.old_book None)); reflexivity.
  - apply (proj2 (contexts_unbound_raise_NameError (G := Demo.engine true)
                    (mkWorld None None ∅ [Demo.old_book])
                    "btcprices.gnumeric" 0%nat Demo.old_book None));
      reflexivity.
Defined.

(** X10, witness: the workbook made for the tracked file on an empty
    disk. *)
Lemma new_workbook_saves_to_its_path_witness :
  wb_save (G := Demo.engine true) 0 None
          (mkWorld (Some tt) (Some tt) ∅ [Demo.new_book])
  = wb_save (G := Demo.engine true) 0 (Some "btcprices.gnumeric")
            (mkWorld (Some tt) (Some tt) ∅ [Demo.new_book]).
Proof.
  apply (new_workbook_saves_to_its_path (G := Demo.engine true)
           (mkWorld (Some tt) (Some tt) ∅ []) _ "btcprices.gnumeric" 0%nat);
    reflexivity.
Defined.

(** X13, witness: the fetch fails; the disk keeps its file. *)
Lemma run_failing_before_save_keeps_disk_witness :
  disk (main (G := Demo.engine true) (P := Demo.parser) Demo.no_quote
             (Demo.boot Demo.old_disk)).2
  = Demo.old_disk.
Proof.
  apply (run_failing_before_save_keeps_disk (G := Demo.engine true) (P := Demo.parser)
           Demo.no_quote (Demo.boot Demo.old_disk) _ URLError).
  - vm_compute. reflexivity.
  - discriminate.
Defined.

(** X14, witness: the end-to-end scenario on an empty disk. *)
Lemma run_saves_written_document_witness :
  main (G := Demo.engine true) (P := Demo.parser) Demo.env (Demo.boot ∅)
  = (inr tt,
     mkWorld (Some tt) (Some tt)
       {[ "btcprices.gnumeric" := RegularFile "saved" ]}
       [mkWorkbook "file://btcprices.gnumeric"
          [format_price 2 (Demo.priced 2 Demo.sheet1_titled)]]).
Proof.
  apply (run_saves_written_document (G := Demo.engine true) (P := Demo.parser)
           Demo.env (Demo.boot ∅) Demo.new_book Demo.sheet1 2
           "2021-06-01T00:00:00Z" "35,000.00" Demo.en_US Demo.midnight
           (Demo.stamped 2 Demo.sheet1_titled)
           (Demo.priced 2 Demo.sheet1_titled)).
  - left. split; reflexivity.
  - reflexivity.
  - vm_compute. reflexivity.
  - exists Demo.quote. do 3 eexists. repeat split; vm_compute; reflexivity.
  - vm_compute. reflexivity.
  - vm_compute. reflexivity.
  - vm_compute. reflexivity.
  - vm_compute. reflexivity.
Defined.

(** X15, witness: no quote on an empty disk. *)
Lemma run_without_quote_stops_after_scan_witness :
  main (G := Demo.engine true) (P := Demo.parser) Demo.no_quote (Demo.boot ∅)
  = (inl URLError,
     at_sheet (Demo.boot ∅) Demo.new_book Demo.sheet1_titled).
Proof.
  apply (run_without_quote_stops_after_scan (G := Demo.engine true) (P := Demo.parser)
           Demo.no_quote (Demo.boot ∅) Demo.new_book Demo.sheet1 URLError).
  - left. split; reflexivity.
  - reflexivity.
  - left. reflexivity.
Defined.

(** X16, witness: an engine whose new sheets have 2 rows. *)
Lemma run_on_sheet_without_data_rows_raises_NameError_witness :
  (main (G := Demo.tiny_engine) (P := Demo.parser) Demo.env (Demo.boot ∅)).1
  = inl (NameError "row").
Proof.
  rewrite (run_on_sheet_without_data_rows_raises_NameError (G := Demo.tiny_engine) (P := Demo.parser) Demo.env (Demo.boot ∅)
             (mkWorkbook "file://btcprices.gnumeric"
                         [Demo.empty_sheet "Sheet1" 2])
             (Demo.empty_sheet "Sheet1" 2) Demo.quote
             (JObject [("updated", JString "2021-06-01T00:00:00Z")])
             "2021-06-01T00:00:00Z" Demo.midnight).
  - reflexivity.
  - left. split; reflexivity.
  - reflexivity.
  - simpl. lia.
  - reflexivity.
  - reflexivity.
  - reflexivity.
  - vm_compute. reflexivity.
Defined.

(** X17, witness: the comma-grouped price under the C locale. *)
Lemma run_with_unreadable_price_keeps_timestamp_witness :
  main (G := Demo.engine true) (P := Demo.parser) Demo.c_env (Demo.boot ∅)
  = (inl (ValueError "invalid literal for float()"),
     at_sheet (Demo.boot ∅) Demo.new_book
              (Demo.stamped 2 Demo.sheet1_titled)).
Proof.
  apply (run_with_unreadable_price_keeps_timestamp (G := Demo.engine true) (P := Demo.parser)
           Demo.c_env (Demo.boot ∅) Demo.new_book Demo.sheet1 2
           "2021-06-01T00:00:00Z" "35,000.00" Demo.c_locale Demo.midnight
           (Demo.stamped 2 Demo.sheet1_titled)).
  - left. split; reflexivity.
  - reflexivity.
  - vm_compute. reflexivity.
  - exists Demo.quote. do 3 eexists. repeat split; vm_compute; reflexivity.
  - vm_compute. reflexivity.
  - vm_compute. reflexivity.
  - vm_compute. reflexivity.
Defined.
